(** * MediAssist (app.py): a shallow embedding and its properties

    The program is one Streamlit script.  Its functions talk to three remote
    services (a chat model, a Firestore collection, the Places text search)
    and render widgets.  The embedding keeps the script's shape:

    - Python exceptions are a sum type [res], raised and caught explicitly;
    - the remote services and the rendered page are one [world] record that
      every operation threads through (a state-and-exception monad [M]);
    - dictionaries (Firestore documents, JSON objects, table rows) are
      [gmap string _];
    - [datetime.time], [strftime], [strptime] and [sorted] are modelled after
      CPython's own definitions, on the inputs the script gives them; text
      is UTF-8, and what counts as a digit or as printable follows the
      Unicode database of CPython 3.11.

    The page holds the widgets that carry data or messages ([st.error],
    [st.warning], [st.info], [st.success], [st.table] and the [st.markdown]
    lines of the clinic list); the static layout (title, headers, style
    sheet, input widgets, footer) is left out. *)

From Stdlib Require Import String Ascii ZArith Lia List Floats.PrimFloat.
From Stdlib Require Import Sorting.Permutation Sorting.Sorted Structures.OrderedTypeEx.
From stdpp Require Import base option list gmap strings pretty.

#[local] Set Warnings "-register-all".

Local Open Scope string_scope.
Local Open Scope list_scope.
Local Open Scope nat_scope.

(** ** Python text *)

(** A Python [str] is kept as its UTF-8 bytes.  [next_code_point] reads the
    first character: its code point and the text after it.  A byte that
    starts no character (there is none in the encoding of a [str]) counts
    as a character of its own, beyond the last code point. *)
Fixpoint continuation_bytes (n : nat) (acc : N) (s : string) : option (N * string) :=
  match n with
  | O => Some (acc, s)
  | S n' =>
      match s with
      | EmptyString => None
      | String a s' =>
          let b := N_of_ascii a in
          if ((128 <=? b) && (b <? 192))%N
          then continuation_bytes n' (acc * 64 + (b - 128))%N s'
          else None
      end
  end.

Definition next_code_point (s : string) : option (N * string) :=
  match s with
  | EmptyString => None
  | String a s' =>
      let b := N_of_ascii a in
      let decoded :=
        if (b <? 128)%N then Some (b, s')
        else if (b <? 192)%N then None
        else if (b <? 224)%N then continuation_bytes 1 (b - 192)%N s'
        else if (b <? 240)%N then continuation_bytes 2 (b - 224)%N s'
        else if (b <? 248)%N then continuation_bytes 3 (b - 240)%N s'
        else None in
      Some (default ((1114112 + b)%N, s') decoded)
  end.

Definition in_ranges (ranges : list (N * N)) (c : N) : bool :=
  existsb (λ r : N * N, (r.1 <=? c) && (c <=? r.2))%N ranges.

(** The decimal digits beyond ASCII (category Nd of Unicode 14.0, the
    database of CPython 3.11), as ranges of code points.  Every range
    starts at a zero and holds whole runs of ten digits. *)
Definition decimal_ranges : list (N * N) :=
  [
    (1632, 1641); (1776, 1785); (1984, 1993); (2406, 2415);
    (2534, 2543); (2662, 2671); (2790, 2799); (2918, 2927);
    (3046, 3055); (3174, 3183); (3302, 3311); (3430, 3439);
    (3558, 3567); (3664, 3673); (3792, 3801); (3872, 3881);
    (4160, 4169); (4240, 4249); (6112, 6121); (6160, 6169);
    (6470, 6479); (6608, 6617); (6784, 6793); (6800, 6809);
    (6992, 7001); (7088, 7097); (7232, 7241); (7248, 7257);
    (42528, 42537); (43216, 43225); (43264, 43273); (43472, 43481);
    (43504, 43513); (43600, 43609); (44016, 44025); (65296, 65305);
    (66720, 66729); (68912, 68921); (69734, 69743); (69872, 69881);
    (69942, 69951); (70096, 70105); (70384, 70393); (70736, 70745);
    (70864, 70873); (71248, 71257); (71360, 71369); (71472, 71481);
    (71904, 71913); (72016, 72025); (72784, 72793); (73040, 73049);
    (73120, 73129); (92768, 92777); (92864, 92873); (93008, 93017);
    (120782, 120831); (123200, 123209); (123632, 123641); (125264, 125273);
    (130032, 130041)
  ]%N.

(** [unicodedata.decimal(c)], if [c] is a decimal digit: what [\d] matches
    in a [str] pattern and what [int] reads. *)
Definition decimal_value (c : N) : option N :=
  if ((48 <=? c) && (c <=? 57))%N then Some (c - 48)%N
  else
    match List.find (λ r : N * N, (r.1 <=? c) && (c <=? r.2))%N decimal_ranges with
    | Some r => Some ((c - r.1) mod 10)%N
    | None => None
    end.

(** The characters beyond ASCII that [str.isprintable] rejects (Unicode
    14.0): controls, formats, separators, surrogates, private use and
    unassigned code points. *)
Definition unprintable_ranges : list (N * N) :=
  [
    (128, 160); (173, 173); (888, 889); (896, 899);
    (907, 907); (909, 909); (930, 930); (1328, 1328);
    (1367, 1368); (1419, 1420); (1424, 1424); (1480, 1487);
    (1515, 1518); (1525, 1541); (1564, 1564); (1757, 1757);
    (1806, 1807); (1867, 1868); (1970, 1983); (2043, 2044);
    (2094, 2095); (2111, 2111); (2140, 2141); (2143, 2143);
    (2155, 2159); (2191, 2199); (2274, 2274); (2436, 2436);
    (2445, 2446); (2449, 2450); (2473, 2473); (2481, 2481);
    (2483, 2485); (2490, 2491); (2501, 2502); (2505, 2506);
    (2511, 2518); (2520, 2523); (2526, 2526); (2532, 2533);
    (2559, 2560); (2564, 2564); (2571, 2574); (2577, 2578);
    (2601, 2601); (2609, 2609); (2612, 2612); (2615, 2615);
    (2618, 2619); (2621, 2621); (2627, 2630); (2633, 2634);
    (2638, 2640); (2642, 2648); (2653, 2653); (2655, 2661);
    (2679, 2688); (2692, 2692); (2702, 2702); (2706, 2706);
    (2729, 2729); (2737, 2737); (2740, 2740); (2746, 2747);
    (2758, 2758); (2762, 2762); (2766, 2767); (2769, 2783);
    (2788, 2789); (2802, 2808); (2816, 2816); (2820, 2820);
    (2829, 2830); (2833, 2834); (2857, 2857); (2865, 2865);
    (2868, 2868); (2874, 2875); (2885, 2886); (2889, 2890);
    (2894, 2900); (2904, 2907); (2910, 2910); (2916, 2917);
    (2936, 2945); (2948, 2948); (2955, 2957); (2961, 2961);
    (2966, 2968); (2971, 2971); (2973, 2973); (2976, 2978);
    (2981, 2983); (2987, 2989); (3002, 3005); (3011, 3013);
    (3017, 3017); (3022, 3023); (3025, 3030); (3032, 3045);
    (3067, 3071); (3085, 3085); (3089, 3089); (3113, 3113);
    (3130, 3131); (3141, 3141); (3145, 3145); (3150, 3156);
    (3159, 3159); (3163, 3164); (3166, 3167); (3172, 3173);
    (3184, 3190); (3213, 3213); (3217, 3217); (3241, 3241);
    (3252, 3252); (3258, 3259); (3269, 3269); (3273, 3273);
    (3278, 3284); (3287, 3292); (3295, 3295); (3300, 3301);
    (3312, 3312); (3315, 3327); (3341, 3341); (3345, 3345);
    (3397, 3397); (3401, 3401); (3408, 3411); (3428, 3429);
    (3456, 3456); (3460, 3460); (3479, 3481); (3506, 3506);
    (3516, 3516); (3518, 3519); (3527, 3529); (3531, 3534);
    (3541, 3541); (3543, 3543); (3552, 3557); (3568, 3569);
    (3573, 3584); (3643, 3646); (3676, 3712); (3715, 3715);
    (3717, 3717); (3723, 3723); (3748, 3748); (3750, 3750);
    (3774, 3775); (3781, 3781); (3783, 3783); (3790, 3791);
    (3802, 3803); (3808, 3839); (3912, 3912); (3949, 3952);
    (3992, 3992); (4029, 4029); (4045, 4045); (4059, 4095);
    (4294, 4294); (4296, 4300); (4302, 4303); (4681, 4681);
    (4686, 4687); (4695, 4695); (4697, 4697); (4702, 4703);
    (4745, 4745); (4750, 4751); (4785, 4785); (4790, 4791);
    (4799, 4799); (4801, 4801); (4806, 4807); (4823, 4823);
    (4881, 4881); (4886, 4887); (4955, 4956); (4989, 4991);
    (5018, 5023); (5110, 5111); (5118, 5119); (5760, 5760);
    (5789, 5791); (5881, 5887); (5910, 5918); (5943, 5951);
    (5972, 5983); (5997, 5997); (6001, 6001); (6004, 6015);
    (6110, 6111); (6122, 6127); (6138, 6143); (6158, 6158);
    (6170, 6175); (6265, 6271); (6315, 6319); (6390, 6399);
    (6431, 6431); (6444, 6447); (6460, 6463); (6465, 6467);
    (6510, 6511); (6517, 6527); (6572, 6575); (6602, 6607);
    (6619, 6621); (6684, 6685); (6751, 6751); (6781, 6782);
    (6794, 6799); (6810, 6815); (6830, 6831); (6863, 6911);
    (6989, 6991); (7039, 7039); (7156, 7163); (7224, 7226);
    (7242, 7244); (7305, 7311); (7355, 7356); (7368, 7375);
    (7419, 7423); (7958, 7959); (7966, 7967); (8006, 8007);
    (8014, 8015); (8024, 8024); (8026, 8026); (8028, 8028);
    (8030, 8030); (8062, 8063); (8117, 8117); (8133, 8133);
    (8148, 8149); (8156, 8156); (8176, 8177); (8181, 8181);
    (8191, 8207); (8232, 8239); (8287, 8303); (8306, 8307);
    (8335, 8335); (8349, 8351); (8385, 8399); (8433, 8447);
    (8588, 8591); (9255, 9279); (9291, 9311); (11124, 11125);
    (11158, 11158); (11508, 11512); (11558, 11558); (11560, 11564);
    (11566, 11567); (11624, 11630); (11633, 11646); (11671, 11679);
    (11687, 11687); (11695, 11695); (11703, 11703); (11711, 11711);
    (11719, 11719); (11727, 11727); (11735, 11735); (11743, 11743);
    (11870, 11903); (11930, 11930); (12020, 12031); (12246, 12271);
    (12284, 12288); (12352, 12352); (12439, 12440); (12544, 12548);
    (12592, 12592); (12687, 12687); (12772, 12783); (12831, 12831);
    (42125, 42127); (42183, 42191); (42540, 42559); (42744, 42751);
    (42955, 42959); (42962, 42962); (42964, 42964); (42970, 42993);
    (43053, 43055); (43066, 43071); (43128, 43135); (43206, 43213);
    (43226, 43231); (43348, 43358); (43389, 43391); (43470, 43470);
    (43482, 43485); (43519, 43519); (43575, 43583); (43598, 43599);
    (43610, 43611); (43715, 43738); (43767, 43776); (43783, 43784);
    (43791, 43792); (43799, 43807); (43815, 43815); (43823, 43823);
    (43884, 43887); (44014, 44015); (44026, 44031); (55204, 55215);
    (55239, 55242); (55292, 63743); (64110, 64111); (64218, 64255);
    (64263, 64274); (64280, 64284); (64311, 64311); (64317, 64317);
    (64319, 64319); (64322, 64322); (64325, 64325); (64451, 64466);
    (64912, 64913); (64968, 64974); (64976, 65007); (65050, 65055);
    (65107, 65107); (65127, 65127); (65132, 65135); (65141, 65141);
    (65277, 65280); (65471, 65473); (65480, 65481); (65488, 65489);
    (65496, 65497); (65501, 65503); (65511, 65511); (65519, 65531);
    (65534, 65535); (65548, 65548); (65575, 65575); (65595, 65595);
    (65598, 65598); (65614, 65615); (65630, 65663); (65787, 65791);
    (65795, 65798); (65844, 65846); (65935, 65935); (65949, 65951);
    (65953, 65999); (66046, 66175); (66205, 66207); (66257, 66271);
    (66300, 66303); (66340, 66348); (66379, 66383); (66427, 66431);
    (66462, 66462); (66500, 66503); (66518, 66559); (66718, 66719);
    (66730, 66735); (66772, 66775); (66812, 66815); (66856, 66863);
    (66916, 66926); (66939, 66939); (66955, 66955); (66963, 66963);
    (66966, 66966); (66978, 66978); (66994, 66994); (67002, 67002);
    (67005, 67071); (67383, 67391); (67414, 67423); (67432, 67455);
    (67462, 67462); (67505, 67505); (67515, 67583); (67590, 67591);
    (67593, 67593); (67638, 67638); (67641, 67643); (67645, 67646);
    (67670, 67670); (67743, 67750); (67760, 67807); (67827, 67827);
    (67830, 67834); (67868, 67870); (67898, 67902); (67904, 67967);
    (68024, 68027); (68048, 68049); (68100, 68100); (68103, 68107);
    (68116, 68116); (68120, 68120); (68150, 68151); (68155, 68158);
    (68169, 68175); (68185, 68191); (68256, 68287); (68327, 68330);
    (68343, 68351); (68406, 68408); (68438, 68439); (68467, 68471);
    (68498, 68504); (68509, 68520); (68528, 68607); (68681, 68735);
    (68787, 68799); (68851, 68857); (68904, 68911); (68922, 69215);
    (69247, 69247); (69290, 69290); (69294, 69295); (69298, 69375);
    (69416, 69423); (69466, 69487); (69514, 69551); (69580, 69599);
    (69623, 69631); (69710, 69713); (69750, 69758); (69821, 69821);
    (69827, 69839); (69865, 69871); (69882, 69887); (69941, 69941);
    (69960, 69967); (70007, 70015); (70112, 70112); (70133, 70143);
    (70162, 70162); (70207, 70271); (70279, 70279); (70281, 70281);
    (70286, 70286); (70302, 70302); (70314, 70319); (70379, 70383);
    (70394, 70399); (70404, 70404); (70413, 70414); (70417, 70418);
    (70441, 70441); (70449, 70449); (70452, 70452); (70458, 70458);
    (70469, 70470); (70473, 70474); (70478, 70479); (70481, 70486);
    (70488, 70492); (70500, 70501); (70509, 70511); (70517, 70655);
    (70748, 70748); (70754, 70783); (70856, 70863); (70874, 71039);
    (71094, 71095); (71134, 71167); (71237, 71247); (71258, 71263);
    (71277, 71295); (71354, 71359); (71370, 71423); (71451, 71452);
    (71468, 71471); (71495, 71679); (71740, 71839); (71923, 71934);
    (71943, 71944); (71946, 71947); (71956, 71956); (71959, 71959);
    (71990, 71990); (71993, 71994); (72007, 72015); (72026, 72095);
    (72104, 72105); (72152, 72153); (72165, 72191); (72264, 72271);
    (72355, 72367); (72441, 72703); (72713, 72713); (72759, 72759);
    (72774, 72783); (72813, 72815); (72848, 72849); (72872, 72872);
    (72887, 72959); (72967, 72967); (72970, 72970); (73015, 73017);
    (73019, 73019); (73022, 73022); (73032, 73039); (73050, 73055);
    (73062, 73062); (73065, 73065); (73103, 73103); (73106, 73106);
    (73113, 73119); (73130, 73439); (73465, 73647); (73649, 73663);
    (73714, 73726); (74650, 74751); (74863, 74863); (74869, 74879);
    (75076, 77711); (77811, 77823); (78895, 82943); (83527, 92159);
    (92729, 92735); (92767, 92767); (92778, 92781); (92863, 92863);
    (92874, 92879); (92910, 92911); (92918, 92927); (92998, 93007);
    (93018, 93018); (93026, 93026); (93048, 93052); (93072, 93759);
    (93851, 93951); (94027, 94030); (94088, 94094); (94112, 94175);
    (94181, 94191); (94194, 94207); (100344, 100351); (101590, 101631);
    (101641, 110575); (110580, 110580); (110588, 110588); (110591, 110591);
    (110883, 110927); (110931, 110947); (110952, 110959); (111356, 113663);
    (113771, 113775); (113789, 113791); (113801, 113807); (113818, 113819);
    (113824, 118527); (118574, 118575); (118599, 118607); (118724, 118783);
    (119030, 119039); (119079, 119080); (119155, 119162); (119275, 119295);
    (119366, 119519); (119540, 119551); (119639, 119647); (119673, 119807);
    (119893, 119893); (119965, 119965); (119968, 119969); (119971, 119972);
    (119975, 119976); (119981, 119981); (119994, 119994); (119996, 119996);
    (120004, 120004); (120070, 120070); (120075, 120076); (120085, 120085);
    (120093, 120093); (120122, 120122); (120127, 120127); (120133, 120133);
    (120135, 120137); (120145, 120145); (120486, 120487); (120780, 120781);
    (121484, 121498); (121504, 121504); (121520, 122623); (122655, 122879);
    (122887, 122887); (122905, 122906); (122914, 122914); (122917, 122917);
    (122923, 123135); (123181, 123183); (123198, 123199); (123210, 123213);
    (123216, 123535); (123567, 123583); (123642, 123646); (123648, 124895);
    (124903, 124903); (124908, 124908); (124911, 124911); (124927, 124927);
    (125125, 125126); (125143, 125183); (125260, 125263); (125274, 125277);
    (125280, 126064); (126133, 126208); (126270, 126463); (126468, 126468);
    (126496, 126496); (126499, 126499); (126501, 126502); (126504, 126504);
    (126515, 126515); (126520, 126520); (126522, 126522); (126524, 126529);
    (126531, 126534); (126536, 126536); (126538, 126538); (126540, 126540);
    (126544, 126544); (126547, 126547); (126549, 126550); (126552, 126552);
    (126554, 126554); (126556, 126556); (126558, 126558); (126560, 126560);
    (126563, 126563); (126565, 126566); (126571, 126571); (126579, 126579);
    (126584, 126584); (126589, 126589); (126591, 126591); (126602, 126602);
    (126620, 126624); (126628, 126628); (126634, 126634); (126652, 126703);
    (126706, 126975); (127020, 127023); (127124, 127135); (127151, 127152);
    (127168, 127168); (127184, 127184); (127222, 127231); (127406, 127461);
    (127491, 127503); (127548, 127551); (127561, 127567); (127570, 127583);
    (127590, 127743); (128728, 128732); (128749, 128751); (128765, 128767);
    (128884, 128895); (128985, 128991); (129004, 129007); (129009, 129023);
    (129036, 129039); (129096, 129103); (129114, 129119); (129160, 129167);
    (129198, 129199); (129202, 129279); (129620, 129631); (129646, 129647);
    (129653, 129655); (129661, 129663); (129671, 129679); (129709, 129711);
    (129723, 129727); (129734, 129743); (129754, 129759); (129768, 129775);
    (129783, 129791); (129939, 129939); (129995, 130031); (130042, 131071);
    (173792, 173823); (177977, 177983); (178206, 178207); (183970, 183983);
    (191457, 194559); (195102, 196607); (201547, 917759); (918000, 1114111)
  ]%N.

(** [c.isprintable()] *)
Definition isprintable (c : N) : bool :=
  if (c <? 128)%N then ((32 <=? c) && (c <? 127))%N
  else negb (in_ranges unprintable_ranges c) && (c <? 1114112)%N.

Definition hex_digit (d : N) : ascii :=
  if (d <? 10)%N then ascii_of_N (48 + d) else ascii_of_N (87 + d).

(** [c] in hexadecimal, lower case, on [width] digits. *)
Fixpoint hex_fixed (width : nat) (c : N) (acc : string) : string :=
  match width with
  | O => acc
  | S w => hex_fixed w (c / 16)%N (String (hex_digit (c mod 16)%N) acc)
  end.

(** The text [s] has before [rest], where [rest] is a suffix of [s]. *)
Definition text_before (s rest : string) : string :=
  String.substring 0 (String.length s - String.length rest) s.

(** How [repr] writes one character inside the quotes [quote]. *)
Definition repr_char (quote c : N) (bytes : string) : string :=
  if ((c =? quote) || (c =? 92))%N then String "\" bytes
  else if (c =? 9)%N then "\t"
  else if (c =? 10)%N then "\n"
  else if (c =? 13)%N then "\r"
  else if isprintable c then bytes
  else if (c <? 256)%N then "\x" +:+ hex_fixed 2 c EmptyString
  else if (c <? 65536)%N then "\u" +:+ hex_fixed 4 c EmptyString
  else "\U" +:+ hex_fixed 8 c EmptyString.

Fixpoint repr_chars (fuel : nat) (quote : N) (s : string) : string :=
  match fuel with
  | O => EmptyString
  | S fuel' =>
      match next_code_point s with
      | None => EmptyString
      | Some (c, rest) =>
          repr_char quote c (text_before s rest) +:+ repr_chars fuel' quote rest
      end
  end.

Fixpoint has_byte (b : N) (s : string) : bool :=
  match s with
  | EmptyString => false
  | String a s' => (N_of_ascii a =? b)%N || has_byte b s'
  end.

(** [repr(s)]: in single quotes, or in double quotes when the text has a
    single quote and no double one. *)
Definition py_repr (s : string) : string :=
  let quote := if has_byte 39 s && negb (has_byte 34 s) then 34%N else 39%N in
  String (ascii_of_N quote)
    (repr_chars (String.length s) quote s +:+ String (ascii_of_N quote) EmptyString).

(** ** Python exceptions *)

(** The exception classes the script can meet.  All of them derive from
    [Exception].  [RequestException] stands for the family of
    [requests.exceptions] (connection errors, HTTP status errors);
    [RequestsJSONDecodeError] is [requests.exceptions.JSONDecodeError], a
    subclass of both [RequestException] and [json.JSONDecodeError];
    [ServiceError] is whatever else a client library raises. *)
Inductive exn : Type :=
| KeyError (key : string)
| ValueError (msg : string)
| TypeError (msg : string)
| AttributeError (msg : string)
| RequestException (msg : string)
| JSONDecodeError (msg : string)
| RequestsJSONDecodeError (msg : string)
| ServiceError (msg : string).

(** [str(e)], as interpolated by the f-strings of the handlers. *)
Definition exn_str (e : exn) : string :=
  match e with
  | KeyError k => py_repr k
  | ValueError m | TypeError m | AttributeError m
  | RequestException m | JSONDecodeError m | RequestsJSONDecodeError m
  | ServiceError m => m
  end.

(** [isinstance(e, requests.exceptions.RequestException)] and
    [isinstance(e, json.JSONDecodeError)], for the [except] clauses. *)
Definition is_RequestException (e : exn) : bool :=
  match e with
  | RequestException _ | RequestsJSONDecodeError _ => true
  | _ => false
  end.
Definition is_JSONDecodeError (e : exn) : bool :=
  match e with
  | JSONDecodeError _ | RequestsJSONDecodeError _ => true
  | _ => false
  end.

Inductive res (A : Type) : Type :=
| Ok (a : A)
| Raise (e : exn).
Arguments Ok {A} a.
Arguments Raise {A} e.

Definition is_Ok {A} (r : res A) : bool :=
  match r with Ok _ => true | Raise _ => false end.

(** ** datetime.time, strftime("%H:%M") and strptime(_, "%H:%M") *)

(** A naive [datetime.time]: the four fields the constructor takes. *)
Record time : Type := mktime {
  hour : N;
  minute : N;
  second : N;
  microsecond : N
}.

(** The ranges the [datetime.time] constructor enforces. *)
Definition valid_time (t : time) : Prop :=
  (hour t < 24 ∧ minute t < 60 ∧ second t < 60 ∧ microsecond t < 1000000)%N.

(** [t.replace(second=0, microsecond=0)]. *)
Definition truncate_to_minute (t : time) : time :=
  mktime (hour t) (minute t) 0 0.

(** [time.__lt__]: the field tuples compared lexicographically. *)
Definition time_ltb (a b : time) : bool :=
  if (hour a <? hour b)%N then true
  else if (hour b <? hour a)%N then false
  else if (minute a <? minute b)%N then true
  else if (minute b <? minute a)%N then false
  else if (second a <? second b)%N then true
  else if (second b <? second a)%N then false
  else (microsecond a <? microsecond b)%N.

Definition digit_char (d : N) : ascii := ascii_of_N (48 + d).

(** A two-digit, zero-padded field, as [%H] and [%M] print it. *)
Definition two_digits (n : N) : string :=
  String (digit_char (n / 10)) (String (digit_char (n mod 10)) EmptyString).

(** [t.strftime("%H:%M")] *)
Definition strftime_HM (t : time) : string :=
  two_digits (hour t) +:+ ":" +:+ two_digits (minute t).

(** Character classes of the regular expression that [_strptime] builds,
    on code points: ["0"] is 48 and ["9"] is 57; [\d] is any decimal digit
    of Unicode. *)
Definition char_in (lo hi : N) (c : N) : bool := ((lo <=? c) && (c <=? hi))%N.
Definition is_digit (c : N) : bool :=
  match decimal_value c with
  | Some _ => true
  | None => false
  end.

(** One alternative of a group is a sequence of classes; it consumes one
    character per class and returns the matched characters and the rest. *)
Fixpoint match_classes (p : list (N → bool)) (s : string)
  : option (list N * string) :=
  match p with
  | [] => Some ([], s)
  | cls :: p' =>
      match next_code_point s with
      | None => None
      | Some (c, s') =>
          if cls c then
            match match_classes p' s' with
            | Some (m, r) => Some (c :: m, r)
            | None => None
            end
          else None
      end
  end.

(** Ordered alternation with backtracking into the continuation [k], the
    way [re.match] explores [a|b|c] followed by the rest of the pattern. *)
Fixpoint match_alternatives {A} (alts : list (list (N → bool)))
    (k : list N → string → option A) (s : string) : option A :=
  match alts with
  | [] => None
  | alt :: rest =>
      match match_classes alt s with
      | Some (m, r) =>
          match k m r with
          | Some x => Some x
          | None => match_alternatives rest k s
          end
      | None => match_alternatives rest k s
      end
  end.

(** [%H] is [(?P<H>2[0-3]|[0-1]\d|\d)], [%M] is [(?P<M>[0-5]\d|\d)]. *)
Definition regex_H : list (list (N → bool)) :=
  [ [char_in 50 50; char_in 48 51]; [char_in 48 49; is_digit]; [is_digit] ].
Definition regex_M : list (list (N → bool)) :=
  [ [char_in 48 53; is_digit]; [is_digit] ].

(** [format_regex.match(data_string)] for the format ["%H:%M"]: the groups
    H and M and the unmatched remainder of the input.  The colon is
    character 58. *)
Definition match_HM (s : string) : option (list N * list N * string) :=
  match_alternatives regex_H (λ h r,
    match next_code_point r with
    | Some (c, r') =>
        if (c =? 58)%N
        then match_alternatives regex_M (λ m r'', Some (h, m, r'')) r'
        else None
    | None => None
    end) s.

(** [int(text)] on a run of decimal digits. *)
Fixpoint int_of_digits (acc : N) (digits : list N) : N :=
  match digits with
  | [] => acc
  | c :: digits' =>
      int_of_digits (10 * acc + default 0%N (decimal_value c))%N digits'
  end.

(** [datetime.strptime(s, "%H:%M").time()] *)
Definition strptime_HM (s : string) : res time :=
  match match_HM s with
  | None =>
      Raise (ValueError ("time data " +:+ py_repr s +:+ " does not match format '%H:%M'"))
  | Some (h, m, EmptyString) =>
      Ok (mktime (int_of_digits 0 h) (int_of_digits 0 m) 0 0)
  | Some (_, _, rest) =>
      Raise (ValueError ("unconverted data remains: " +:+ rest))
  end.

(** ** sorted(iterable, key=...) *)

(** CPython's [list.sort] is stable and compares keys with [<] only.  Any
    stable sort returns the same list, so insertion sort stands for it: the
    new element goes in front of the first element that is not smaller. *)
Section stable_sort.
Context {K A : Type} (ltb : K → K → bool).

Fixpoint insert_by_key (x : K * A) (l : list (K * A)) : list (K * A) :=
  match l with
  | [] => [x]
  | y :: l' =>
      if ltb y.1 x.1 then y :: insert_by_key x l' else x :: y :: l'
  end.

Definition stable_sort (l : list (K * A)) : list (K * A) :=
  foldr insert_by_key [] l.
End stable_sort.

(** A list comprehension whose body may raise: the first exception, in
    iteration order, ends the loop. *)
Fixpoint map_res {A B} (f : A → res B) (l : list A) : res (list B) :=
  match l with
  | [] => Ok []
  | x :: l' =>
      match f x with
      | Raise e => Raise e
      | Ok y =>
          match map_res f l' with
          | Raise e => Raise e
          | Ok ys => Ok (y :: ys)
          end
      end
  end.

(** [sorted(xs, key=key)]: every key is computed first, in order; then the
    elements are sorted, stably, by their keys. *)
Definition sorted {K A} (ltb : K → K → bool) (xs : list A) (key : A → res K)
  : res (list A) :=
  match map_res (λ x, match key x with
                      | Ok k => Ok (k, x)
                      | Raise e => Raise e
                      end) xs with
  | Raise e => Raise e
  | Ok keyed => Ok ((stable_sort ltb keyed).*2)
  end.

(** ** Firestore: values, documents, the server *)

Inductive fvalue : Type :=
| FNull
| FBool (b : bool)
| FInt (n : Z)
| FStr (s : string)
| FTimestamp (t : Z)
| SERVER_TIMESTAMP.

Global Instance fvalue_eq_dec : EqDecision fvalue.
Proof. solve_decision. Defined.

(** A document, and the dictionary [doc.to_dict()] returns. *)
Abbreviation document := (gmap string fvalue).

(** Firestore orders values by type first (null, boolean, number,
    timestamp, string), then within the type. *)
Definition fvalue_rank (v : fvalue) : nat :=
  match v with
  | FNull => 0
  | FBool _ => 1
  | FInt _ => 2
  | FTimestamp _ => 3
  | FStr _ => 4
  | SERVER_TIMESTAMP => 5
  end.

Definition fvalue_ltb (a b : fvalue) : bool :=
  match a, b with
  | FBool x, FBool y => negb x && y
  | FInt x, FInt y => (x <? y)%Z
  | FTimestamp x, FTimestamp y => (x <? y)%Z
  | FStr x, FStr y => String.ltb x y
  | _, _ => fvalue_rank a <? fvalue_rank b
  end.

(** The server: its collections (documents in creation order), the id of
    each document (by collection and position; for a document the client
    adds these are the twenty characters [add] draws at random), its clock,
    and, for each request still to come, whether the call fails and with
    which exception (an unreachable network, a missing index, a denied
    permission).  A failed call leaves the collections as they were. *)
Record firestore_server : Type := {
  collections : gmap string (list document);
  document_id : string → nat → string;
  server_clock : Z;
  outages : list (option exn)
}.

Definition collection_docs (fs : firestore_server) (name : string) : list document :=
  default [] (collections fs !! name).

(** The server replaces the sentinel by its own time when it writes. *)
Definition resolve_sentinel (now : Z) (v : fvalue) : fvalue :=
  match v with
  | SERVER_TIMESTAMP => FTimestamp now
  | _ => v
  end.

(** The next request's fate, and the server with that entry consumed. *)
Definition next_outage (fs : firestore_server) : option exn * firestore_server :=
  match outages fs with
  | [] => (None, fs)
  | o :: rest =>
      (o, {| collections := collections fs;
             document_id := document_id fs;
             server_clock := server_clock fs;
             outages := rest |})
  end.

(** [collection(name).add(data)] on the server. *)
Definition server_add (name : string) (data : document) (fs : firestore_server)
  : res unit * firestore_server :=
  match next_outage fs with
  | (Some e, fs') => (Raise e, fs')
  | (None, fs') =>
      let doc := resolve_sentinel (server_clock fs') <$> data in
      (Ok tt,
       {| collections :=
            <[name := collection_docs fs' name ++ [doc]]> (collections fs');
          document_id := document_id fs';
          server_clock := (server_clock fs' + 1)%Z;
          outages := outages fs' |})
  end.

(** A query ordered by a field orders by that field first and, among
    documents with equal values, by document id. *)
Definition query_key_ltb (a b : fvalue * string) : bool :=
  fvalue_ltb a.1 b.1 || (negb (fvalue_ltb b.1 a.1) && String.ltb a.2 b.2).

(** What [where(field, "==", v).order_by(order)] selects from a collection
    whose documents have the ids [ids]: the documents whose [field] equals
    [v] and that have the [order] field (Firestore leaves out documents
    without it), ascending by that field, then by id. *)
Definition select_where_order_by (ids : nat → string) (docs : list document)
    (field : string) (v : fvalue) (order : string) : list document :=
  let identified := imap (λ i d, (ids i, d)) docs in
  let hits := filter (λ x : string * document, x.2 !! field = Some v) identified in
  let keyed :=
    omap (λ x : string * document, (λ k, ((k, x.1), x.2)) <$> x.2 !! order) hits in
  (stable_sort query_key_ltb keyed).*2.

(** [collection(name).where(...).order_by(...).stream()], consumed. *)
Definition server_query (name field : string) (v : fvalue) (order : string)
    (fs : firestore_server) : res (list document) * firestore_server :=
  match next_outage fs with
  | (Some e, fs') => (Raise e, fs')
  | (None, fs') =>
      (Ok (select_where_order_by (document_id fs' name) (collection_docs fs' name)
             field v order), fs')
  end.

(** ** JSON values, as [response.json()] returns them *)

Inductive json : Type :=
| JNull
| JBool (b : bool)
| JInt (n : Z)
| JFloat (x : float)
| JStr (s : string)
| JArr (items : list json)
| JObj (fields : gmap string json).

(** Python truthiness: [None], [False], zero and empty containers are false. *)
Definition truthy (v : json) : bool :=
  match v with
  | JNull => false
  | JBool b => b
  | JInt n => negb (n =? 0)%Z
  | JFloat x => negb (PrimFloat.eqb x PrimFloat.zero)
  | JStr s => negb (String.eqb s EmptyString)
  | JArr items => match items with [] => false | _ => true end
  | JObj fields => negb (bool_decide (fields = ∅))
  end.

Definition type_name (v : json) : string :=
  match v with
  | JNull => "NoneType"
  | JBool _ => "bool"
  | JInt _ => "int"
  | JFloat _ => "float"
  | JStr _ => "str"
  | JArr _ => "list"
  | JObj _ => "dict"
  end.

(** [v.get(key, default)]: only dictionaries have the method. *)
Definition py_get (v : json) (key : string) (dflt : json) : res json :=
  match v with
  | JObj fields => Ok (default dflt (fields !! key))
  | _ => Raise (AttributeError
                  ("'" +:+ type_name v +:+ "' object has no attribute 'get'"))
  end.

(** [v[key]] with a string key. *)
Definition py_getitem (v : json) (key : string) : res json :=
  match v with
  | JObj fields =>
      match fields !! key with
      | Some x => Ok x
      | None => Raise (KeyError key)
      end
  | JNull | JBool _ | JInt _ | JFloat _ =>
      Raise (TypeError ("'" +:+ type_name v +:+ "' object is not subscriptable"))
  | JStr _ => Raise (TypeError "string indices must be integers")
  | JArr _ => Raise (TypeError "list indices must be integers or slices, not str")
  end.

(** [s[:n]], character by character. *)
Fixpoint first_chars (n : nat) (s : string) : list string :=
  match n with
  | O => []
  | S n' =>
      match next_code_point s with
      | None => []
      | Some (_, rest) => text_before s rest :: first_chars n' rest
      end
  end.

(** [for place in v[:5]]: the values the loop visits.  A list yields its
    first five items and a string its first five characters; nothing else
    can be sliced (a dictionary rejects the slice as a key). *)
Definition first_five (v : json) : res (list json) :=
  match v with
  | JArr items => Ok (take 5 items)
  | JStr s => Ok (JStr <$> first_chars 5 s)
  | JObj _ => Raise (TypeError "unhashable type: 'slice'")
  | _ => Raise (TypeError ("'" +:+ type_name v +:+ "' object is not subscriptable"))
  end.

(** ** HTTP, as the [requests] library shows it *)

Inductive http_reply : Type :=
| ConnectionFailed (msg : string)
| Response (status_code : N) (body : option json).

(** ** Streamlit widgets *)

Inductive widget : Type :=
| st_error (body : string)
| st_warning (body : string)
| st_info (body : string)
| st_success (body : string)
| st_markdown (body : string)
| st_table (rows : list document).

(** ** The world outside the script *)

(** [page]: the widgets rendered so far, first to last.
    [firestore]: the document database.
    [http]: what a GET of a URL with query parameters meets.
    [chat]: what the chat model answers to a message, or how the call fails.
    [os_environ]: the environment after [load_dotenv()].
    [service_account_files]: the files that exist, each with whether it
    holds a usable service-account key. *)
Record world : Type := {
  page : list widget;
  firestore : firestore_server;
  http : string → gmap string string → http_reply;
  chat : string → res string;
  os_environ : gmap string string;
  service_account_files : gmap string bool
}.

Definition with_page (f : list widget → list widget) (w : world) : world :=
  {| page := f (page w); firestore := firestore w; http := http w;
     chat := chat w; os_environ := os_environ w;
     service_account_files := service_account_files w |}.

Definition with_firestore (fs : firestore_server) (w : world) : world :=
  {| page := page w; firestore := fs; http := http w;
     chat := chat w; os_environ := os_environ w;
     service_account_files := service_account_files w |}.

(** ** Statements that change the world and may raise *)

Definition M (A : Type) : Type := world → res A * world.

Definition ret {A} (a : A) : M A := λ w, (Ok a, w).

Definition bind {A B} (m : M A) (k : A → M B) : M B :=
  λ w, match m w with
       | (Ok a, w') => k a w'
       | (Raise e, w') => (Raise e, w')
       end.

Notation "x <- m ;; k" := (bind m (λ x, k))
  (at level 100, m at next level, right associativity).
Notation "m ;; k" := (bind m (λ _, k))
  (at level 100, right associativity).

(** An expression that may raise, evaluated as a statement. *)
Definition lift {A} (r : res A) : M A := λ w, (r, w).

(** [try: body  except ...: handler].  The clauses are folded into one
    function: [None] for an exception no clause names, which propagates. *)
Definition try_except {A} (body : M A) (handler : exn → option (M A)) : M A :=
  λ w, match body w with
       | (Ok a, w') => (Ok a, w')
       | (Raise e, w') =>
           match handler e with
           | Some h => h w'
           | None => (Raise e, w')
           end
       end.

(** A widget call appends to the page. *)
Definition st (x : widget) : M unit := λ w, (Ok tt, with_page (λ p, p ++ [x]) w).

(** [os.getenv(name)] *)
Definition getenv (name : string) : M (option string) :=
  λ w, (Ok (os_environ w !! name), w).

(** [os.path.exists(path)]: [None] is not a path. *)
Definition path_exists (path : option string) : M bool :=
  λ w, match path with
       | None => (Raise (TypeError
           "stat: path should be string, bytes, os.PathLike or integer, not NoneType"), w)
       | Some p => (Ok (bool_decide (is_Some (service_account_files w !! p))), w)
       end.

(** The handle [firestore.Client.from_service_account_json] returns. *)
Inductive Client : Type := FirestoreClient (credentials : string).

Definition from_service_account_json (path : option string) : M Client :=
  λ w, match path with
       | None => (Raise (TypeError "expected str, bytes or os.PathLike object, not NoneType"), w)
       | Some p =>
           match service_account_files w !! p with
           | Some true => (Ok (FirestoreClient p), w)
           | Some false => (Raise (ValueError "Service account info was not in the expected format"), w)
           | None => (Raise (ServiceError ("No such file or directory: " +:+ p)), w)
           end
       end.

(** [db.collection(name).add(data)] *)
Definition collection_add (db : Client) (name : string) (data : document) : M unit :=
  λ w, let (r, fs) := server_add name data (firestore w) in (r, with_firestore fs w).

(** [db.collection(name).where(field, "==", v).order_by(order).stream()],
    with the documents it yields. *)
Definition collection_where_order_by_stream (db : Client)
    (name field : string) (v : fvalue) (order : string) : M (list document) :=
  λ w, let (r, fs) := server_query name field v order (firestore w) in
       (r, with_firestore fs w).

(** [requests.get(url, params=params)] *)
Definition requests_get (url : string) (params : gmap string string)
  : M (N * option json) :=
  λ w, match http w url params with
       | ConnectionFailed msg => (Raise (RequestException msg), w)
       | Response code body => (Ok (code, body), w)
       end.

(** A 4xx or 5xx status. *)
Definition is_http_error (status_code : N) : bool :=
  ((400 <=? status_code) && (status_code <? 600))%N.

(** [response.raise_for_status()] *)
Definition raise_for_status (response : N * option json) : res unit :=
  if is_http_error response.1
  then Raise (RequestException (pretty response.1 +:+ " Error"))
  else Ok tt.

(** [response.json()] *)
Definition response_json (response : N * option json) : res json :=
  match response.2 with
  | Some data => Ok data
  | None => Raise (RequestsJSONDecodeError "Expecting value: line 1 column 1 (char 0)")
  end.

(** [chat.send_message(user_input).text] on a fresh ["gemini-pro"] chat. *)
Definition send_message (user_input : string) : M string :=
  λ w, (chat w user_input, w).

(** ** app.py *)

Definition res_bind {A B} (r : res A) (k : A → res B) : res B :=
  match r with
  | Ok a => k a
  | Raise e => Raise e
  end.

(** Truthiness of a string and of [os.getenv]'s result. *)
Definition str_truthy (s : string) : bool := negb (String.eqb s EmptyString).
Definition opt_truthy (o : option string) : bool :=
  match o with
  | Some s => str_truthy s
  | None => false
  end.

(** The module-level names the functions read. *)
Record globals : Type := {
  GEMINI_API_KEY : option string;
  GOOGLE_MAPS_API_KEY : option string;
  db : option Client
}.

(** Lines 12-39: configuration and the Firestore client.  The debugging
    [print] writes to the console, which is not part of the page. *)
Definition startup : M globals :=
  temp_gemini_key <- getenv "GEMINI_API_KEY" ;;
  (if opt_truthy temp_gemini_key then ret tt
   else st (st_error "DEBUG: GEMINI_API_KEY is None! Check your .env file.")) ;;
  gemini_api_key <- getenv "GEMINI_API_KEY" ;;
  google_maps_api_key <- getenv "GOOGLE_MAPS_API_KEY" ;;
  (if opt_truthy gemini_api_key then ret tt
   else st (st_error
     "Gemini API Key not found. Please set GEMINI_API_KEY in your .env file.")) ;;
  client <- try_except
    (credentials <- getenv "FIRESTORE_CREDENTIALS" ;;
     found <- path_exists credentials ;;
     if found then
       (credentials' <- getenv "FIRESTORE_CREDENTIALS" ;;
        c <- from_service_account_json credentials' ;;
        ret (Some c))
     else
       (st (st_error
          "Firestore credentials file not found. Please check your .env and file path.") ;;
        ret None))
    (λ e, Some (st (st_error ("Error initializing Firestore: " +:+ exn_str e)) ;;
                ret None)) ;;
  ret {| GEMINI_API_KEY := gemini_api_key;
         GOOGLE_MAPS_API_KEY := google_maps_api_key;
         db := client |}.

Definition get_gemini_response (user_input : string) : M string :=
  try_except
    (send_message user_input)
    (λ e, Some (ret ("Error communicating with Gemini API: " +:+ exn_str e +:+
                     ". Please check your API key and network connection."))).

(** The dictionary literal of lines 57-63. *)
Definition reminder_data (user_id medicine_name dosage reminder_time_str : string)
  : document :=
  {[ "user_id" := FStr user_id;
     "medicine_name" := FStr medicine_name;
     "dosage" := FStr dosage;
     "time" := FStr reminder_time_str;
     "created_at" := SERVER_TIMESTAMP ]}.

Definition add_reminder_to_firestore (g : globals)
    (user_id medicine_name dosage reminder_time_str : string) : M bool :=
  match db g with
  | None =>
      st (st_error "Firestore is not initialized. Cannot add reminder.") ;;
      ret false
  | Some client =>
      try_except
        (collection_add client "reminders"
           (reminder_data user_id medicine_name dosage reminder_time_str) ;;
         ret true)
        (λ e, Some (st (st_error ("Error adding reminder to Firestore: " +:+ exn_str e)) ;;
                    ret false))
  end.

(** [doc.to_dict()] *)
Definition to_dict (doc : document) : document := doc.

Definition get_reminders_from_firestore (g : globals) (user_id : string)
  : M (list document) :=
  match db g with
  | None =>
      st (st_error "Firestore is not initialized. Cannot retrieve reminders.") ;;
      ret []
  | Some client =>
      try_except
        (reminders_ref <- collection_where_order_by_stream client
                            "reminders" "user_id" (FStr user_id) "created_at" ;;
         ret (foldl (λ reminders doc, reminders ++ [to_dict doc]) [] reminders_ref))
        (λ e, Some (st (st_error ("Error fetching reminders from Firestore: " +:+ exn_str e)) ;;
                    ret []))
  end.

Section clinics.
(** [str(v)] for the values an f-string interpolates. *)
Variable py_str : json → string.

(** A replacement field [{v}]: a string goes in as it is. *)
Definition interpolate (v : json) : string :=
  match v with
  | JStr s => s
  | _ => py_str v
  end.

Definition google_maps_link (name address place_id : json) : string :=
  "https://www.google.com/maps/search/?api=1&query=" +:+ interpolate name +:+ ","
    +:+ interpolate address +:+ "&query_place_id=" +:+ interpolate place_id.

(** One turn of the loop of lines 102-115: the entry to append, if any. *)
Definition clinic_of_place (place : json) : res (option (gmap string json)) :=
  res_bind (py_get place "name" JNull) (λ name,
  res_bind (py_get place "formatted_address" JNull) (λ address,
  res_bind (py_get place "rating" (JStr "N/A")) (λ rating,
  res_bind (py_get place "place_id" JNull) (λ place_id,
  if truthy name && truthy address && truthy place_id then
    Ok (Some {[ "name" := name;
                "address" := address;
                "rating" := rating;
                "link" := JStr (google_maps_link name address place_id) ]})
  else Ok None)))).

Fixpoint clinics_loop (places : list json) (clinics : list (gmap string json))
  : res (list (gmap string json)) :=
  match places with
  | [] => Ok clinics
  | place :: rest =>
      match clinic_of_place place with
      | Raise e => Raise e
      | Ok None => clinics_loop rest clinics
      | Ok (Some clinic) => clinics_loop rest (clinics ++ [clinic])
      end
  end.

(** Lines 100-116, on the decoded response. *)
Definition clinics_of_data (data : json) : res (list (gmap string json)) :=
  res_bind (py_get data "results" JNull) (λ results,
  if truthy results then
    res_bind (py_getitem data "results") (λ all_results,
    res_bind (first_five all_results) (λ places,
    clinics_loop places []))
  else Ok []).

Definition find_nearby_clinics (g : globals) (location : string)
  : M (list (gmap string json)) :=
  if negb (opt_truthy (GOOGLE_MAPS_API_KEY g)) then
    st (st_error "Google Maps API Key is not set. Please add it to your .env file.") ;;
    ret []
  else
    let base_url := "https://maps.googleapis.com/maps/api/place/textsearch/json" in
    let params : gmap string string :=
      {[ "query" := "clinics or hospitals near " +:+ location;
         "key" := default EmptyString (GOOGLE_MAPS_API_KEY g) ]} in
    try_except
      (response <- requests_get base_url params ;;
       lift (raise_for_status response) ;;
       data <- lift (response_json response) ;;
       lift (clinics_of_data data))
      (λ e,
         if is_RequestException e then
           Some (st (st_error ("Error connecting to Google Maps API: " +:+ exn_str e +:+
                               ". Check your API key and network.")) ;;
                 ret [])
         else if is_JSONDecodeError e then
           Some (st (st_error "Error decoding JSON response from Google Maps API.") ;;
                 ret [])
         else None).

(** [clinic[key]] *)
Definition clinic_getitem (clinic : gmap string json) (key : string) : res json :=
  match clinic !! key with
  | Some v => Ok v
  | None => Raise (KeyError key)
  end.

(** The first [st.markdown] of the loop of lines 246-250. *)
Definition clinic_markdown (i : nat) (clinic : gmap string json) : res string :=
  res_bind (clinic_getitem clinic "name") (λ name,
  res_bind (clinic_getitem clinic "address") (λ address,
  res_bind (clinic_getitem clinic "rating") (λ rating,
  res_bind (clinic_getitem clinic "link") (λ link,
  Ok ("**" +:+ pretty (i + 1) +:+ ". " +:+ interpolate name +:+ "** – "
        +:+ interpolate address +:+ "<br>" +:+ "⭐ " +:+ interpolate rating
        +:+ " | [View on Google Maps](" +:+ interpolate link +:+ ")"))))).

Fixpoint render_clinics (i : nat) (clinics : list (gmap string json)) : M unit :=
  match clinics with
  | [] => ret tt
  | clinic :: rest =>
      body <- lift (clinic_markdown i clinic) ;;
      st (st_markdown body) ;;
      st (st_markdown "---") ;;
      render_clinics (S i) rest
  end.

(** Lines 241-254: the "Search Clinics" button. *)
Definition search_clinics (g : globals) (location_input : string) : M unit :=
  if str_truthy location_input then
    clinics <- find_nearby_clinics g location_input ;;
    match clinics with
    | [] => st (st_info
        "No clinics found for your search. Try a different location or check your API key.")
    | _ => render_clinics 0 clinics
    end
  else st (st_warning "Please enter a city or pin code to search for clinics.").
End clinics.

(** Lines 184-190: the "Get Health Advice" button. *)
Definition get_health_advice (user_symptom_input : string) : M unit :=
  if str_truthy user_symptom_input then
    response <- get_gemini_response user_symptom_input ;;
    st (st_info response)
  else st (st_warning "Please enter your symptoms to get advice.").

(** Truthiness of a [datetime.time]: every time is true (Python 3.5 on). *)
Definition time_truthy (t : time) : bool := true.

(** Lines 206-215: the "Add Reminder" button. *)
Definition submit_reminder (g : globals) (user_id medicine_name dosage : string)
    (reminder_time : time) : M unit :=
  if str_truthy medicine_name && str_truthy dosage && time_truthy reminder_time then
    let reminder_time_str := strftime_HM reminder_time in
    added <- add_reminder_to_firestore g user_id medicine_name dosage reminder_time_str ;;
    if added : bool then
      st (st_success ("Reminder for " +:+ medicine_name +:+ " at "
                        +:+ reminder_time_str +:+ " added!"))
    else st (st_error "Failed to add reminder.")
  else st (st_warning "Please fill in all fields for the reminder.").

(** [x[key]] on a reminder dictionary. *)
Definition doc_getitem (x : document) (key : string) : res fvalue :=
  match x !! key with
  | Some v => Ok v
  | None => Raise (KeyError key)
  end.

Definition fvalue_type_name (v : fvalue) : string :=
  match v with
  | FNull => "NoneType"
  | FBool _ => "bool"
  | FInt _ => "int"
  | FStr _ => "str"
  | FTimestamp _ => "DatetimeWithNanoseconds"
  | SERVER_TIMESTAMP => "Sentinel"
  end.

(** The key function of line 221:
    [lambda x: datetime.strptime(x["time"], "%H:%M").time()]. *)
Definition reminder_sort_key (x : document) : res time :=
  res_bind (doc_getitem x "time") (λ v,
  match v with
  | FStr s => strptime_HM s
  | _ => Raise (TypeError ("strptime() argument 1 must be str, not "
                             +:+ fvalue_type_name v))
  end).

(** Line 221. *)
Definition sorted_reminders (user_reminders : list document) : res (list document) :=
  sorted time_ltb user_reminders reminder_sort_key.

(** The dictionary appended at lines 226-230. *)
Definition display_row (reminder : document) : res document :=
  res_bind (doc_getitem reminder "medicine_name") (λ medicine,
  res_bind (doc_getitem reminder "dosage") (λ dosage,
  res_bind (doc_getitem reminder "time") (λ time_str,
  Ok {[ "Medicine" := medicine; "Dosage" := dosage; "Time" := time_str ]}))).

(** Lines 224-230. *)
Definition display_data (reminders : list document) : res (list document) :=
  map_res display_row reminders.

(** Lines 219-233: what is rendered for the list the query returned. *)
Definition render_reminders (user_reminders : list document) : M unit :=
  match user_reminders with
  | [] => st (st_info "No medicine reminders set yet. Add one above!")
  | _ =>
      ordered <- lift (sorted_reminders user_reminders) ;;
      rows <- lift (display_data ordered) ;;
      st (st_table rows)
  end.

(** Lines 217-233. *)
Definition saved_reminders (g : globals) (user_id : string) : M unit :=
  user_reminders <- get_reminders_from_firestore g user_id ;;
  render_reminders user_reminders.

(** What the user did before this run of the script. *)
Record inputs : Type := {
  session_user_id : string;
  user_symptom_input : string;
  get_health_advice_clicked : bool;
  medicine_name_input : string;
  dosage_input : string;
  time_input : time;
  add_reminder_clicked : bool;
  location_input : string;
  search_clinics_clicked : bool
}.

(** One run of the script, top to bottom. *)
Definition script (py_str : json → string) (i : inputs) : M unit :=
  g <- startup ;;
  (if get_health_advice_clicked i then get_health_advice (user_symptom_input i)
   else ret tt) ;;
  (if add_reminder_clicked i then
     submit_reminder g (session_user_id i) (medicine_name_input i)
       (dosage_input i) (time_input i)
   else ret tt) ;;
  saved_reminders g (session_user_id i) ;;
  (if search_clinics_clicked i then search_clinics py_str g (location_input i)
   else ret tt).

(** ** Two worlds to run the script in *)

(** [str] for examples: integers and [None] as Python prints them; the one
    float of the examples is 4.5. *)
Definition sample_py_str (v : json) : string :=
  match v with
  | JNull => "None"
  | JInt n => pretty n
  | JFloat _ => "4.5"
  | _ => "?"
  end.

Definition sample_place (name address place_id : string) (rating : json) : json :=
  JObj {[ "name" := JStr name;
          "formatted_address" := JStr address;
          "rating" := rating;
          "place_id" := JStr place_id ]}.

(** Six results; the second one has no name and the fourth no rating. *)
Definition sample_results : list json :=
  [ sample_place "City Hospital" "1 Station Road, Lucknow" "pid-1" (JFloat 4.5);
    JObj {[ "formatted_address" := JStr "2 Mall Road, Lucknow";
            "place_id" := JStr "pid-2" ]};
    sample_place "Asha Clinic" "3 Park Street, Lucknow" "pid-3" (JInt 4);
    JObj {[ "name" := JStr "Seva Dispensary";
            "formatted_address" := JStr "4 Canal Road, Lucknow";
            "place_id" := JStr "pid-4" ]};
    sample_place "Medicare Centre" "5 Ring Road, Lucknow" "pid-5" (JInt 5);
    sample_place "Lifeline Hospital" "6 Lake View, Lucknow" "pid-6" (JInt 3) ].

Definition sample_places_fields : gmap string json :=
  {[ "status" := JStr "OK"; "results" := JArr sample_results ]}.

Definition sample_places_body : json := JObj sample_places_fields.

Definition evening_dose : document :=
  {[ "user_id" := FStr "user_17"; "medicine_name" := FStr "Metformin";
     "dosage" := FStr "1 tablet"; "time" := FStr "21:15";
     "created_at" := FTimestamp 1 ]}.

Definition morning_dose : document :=
  {[ "user_id" := FStr "user_17"; "medicine_name" := FStr "Amlodipine";
     "dosage" := FStr "5ml"; "time" := FStr "08:00";
     "created_at" := FTimestamp 2 ]}.

(** A reminder of another session. *)
Definition other_dose : document :=
  {[ "user_id" := FStr "user_99"; "medicine_name" := FStr "Aspirin";
     "dosage" := FStr "1 tablet"; "time" := FStr "07:30";
     "created_at" := FTimestamp 3 ]}.

(** A document written by hand into the collection: its time is no "HH:MM". *)
Definition handwritten_dose : document :=
  {[ "user_id" := FStr "user_17"; "medicine_name" := FStr "Insulin";
     "dosage" := FStr "10 units"; "time" := FStr "9pm";
     "created_at" := FTimestamp 4 ]}.

(** Ids as the client draws them: twenty letters and digits, in no order. *)
Fixpoint later_document_id (n : nat) : string :=
  match n with
  | O => "r0Hs4TqPz8LwNc2VbK6y"
  | S n' => String "z" (later_document_id n')
  end.

Definition sample_document_id (name : string) (n : nat) : string :=
  match n with
  | 0 => "q7WmB2kLx0TzYc5RdE1a"
  | 1 => "Ab8nUjP4sVh6QeG9oKy3"
  | 2 => "m1CtZr5XwLd7NfHa2SbJ"
  | S (S (S n')) => later_document_id n'
  end.

(** Everything configured and every service up. *)
Definition configured_world : world :=
  {| page := [];
     firestore :=
       {| collections := {[ "reminders" := [evening_dose; morning_dose; other_dose] ]};
          document_id := sample_document_id;
          server_clock := 5;
          outages := [] |};
     http := λ url params,
       if bool_decide (params !! "key" = Some "maps-key")
       then Response 200 (Some sample_places_body)
       else Response 403 None;
     chat := λ _, Ok "Rest, drink fluids, and see a doctor if the fever lasts.";
     os_environ :=
       {[ "GEMINI_API_KEY" := "gemini-key";
          "GOOGLE_MAPS_API_KEY" := "maps-key";
          "FIRESTORE_CREDENTIALS" := "serviceAccount.json" ]};
     service_account_files := {[ "serviceAccount.json" := true ]} |}.

Definition configured_globals : globals :=
  {| GEMINI_API_KEY := Some "gemini-key";
     GOOGLE_MAPS_API_KEY := Some "maps-key";
     db := Some (FirestoreClient "serviceAccount.json") |}.

(** No [.env] file at all, and nothing reachable. *)
Definition bare_world : world :=
  {| page := [];
     firestore :=
       {| collections := ∅;
          document_id := sample_document_id;
          server_clock := 0;
          outages := [] |};
     http := λ _ _, ConnectionFailed "Name or service not known";
     chat := λ _, Raise (ServiceError "No API_KEY or ADC found");
     os_environ := ∅;
     service_account_files := ∅ |}.

Definition sample_inputs : inputs :=
  {| session_user_id := "user_17";
     user_symptom_input := EmptyString;
     get_health_advice_clicked := false;
     medicine_name_input := EmptyString;
     dosage_input := EmptyString;
     time_input := mktime 9 0 12 345;
     add_reminder_clicked := false;
     location_input := EmptyString;
     search_clinics_clicked := false |}.

(** The configured world after somebody wrote [handwritten_dose] into the
    collection with another client. *)
Definition tampered_world : world :=
  with_firestore
    {| collections :=
         {[ "reminders" := [evening_dose; morning_dose; handwritten_dose] ]};
       document_id := sample_document_id;
       server_clock := 5;
       outages := [] |}
    configured_world.

(** The places service answering with a JSON array instead of an object. *)
Definition array_reply_world : world :=
  {| page := [];
     firestore := firestore configured_world;
     http := λ _ _, Response 200 (Some (JArr []));
     chat := chat configured_world;
     os_environ := os_environ configured_world;
     service_account_files := service_account_files configured_world |}.

(** ** The vocabulary of the properties *)

Section order_vocabulary.
Context {K A : Type} (ltb : K → K → bool).

(** "Not after": the order a sorted list puts its keyed elements in. *)
Definition key_le (p q : K * A) : Prop := ltb q.1 p.1 = false.

(** [same_key k] selects the elements whose key is neither before nor
    after [k]. *)
Definition same_key (k : K) (p : K * A) : bool :=
  negb (ltb p.1 k) && negb (ltb k p.1).

(** [a] may stand before [b]: both have a key, and [b]'s is not smaller. *)
Definition ascending (key : A → res K) (a b : A) : Prop :=
  ∃ ka kb, key a = Ok ka ∧ key b = Ok kb ∧ ltb kb ka = false.
End order_vocabulary.

(** Whether the string printed for [h] hours and [m] minutes parses back to
    [h:m:00]. *)
Definition reads_back (h m : N) : bool :=
  match strptime_HM (two_digits h +:+ ":" +:+ two_digits m) with
  | Ok t => ((hour t =? h) && (minute t =? m) && (second t =? 0) && (microsecond t =? 0))%N
  | Raise _ => false
  end.

(** A record the table can show: its "time" parses as "HH:MM" and it has
    the two fields the rows copy. *)
Definition showable (r : document) : Prop :=
  is_Ok (reminder_sort_key r) ∧
  is_Some (r !! "medicine_name") ∧ is_Some (r !! "dosage").

(** A table row shows the three fields of its record. *)
Definition row_of (r row : document) : Prop :=
  row !! "Medicine" = r !! "medicine_name" ∧
  row !! "Dosage" = r !! "dosage" ∧
  row !! "Time" = r !! "time" ∧
  dom row = {[ "Medicine"; "Dosage"; "Time" ]}.

(** The document the server stores for a call of the add function. *)
Definition stored_reminder (now : Z) (user_id medicine_name dosage time_str : string)
  : document :=
  resolve_sentinel now <$> reminder_data user_id medicine_name dosage time_str.

(** The documents a collection has in [w'] beyond those it had in [w]. *)
Definition new_documents (w w' : world) (name : string) : list document :=
  drop (length (collection_docs (firestore w) name))
       (collection_docs (firestore w') name).

(** Every collection of [fs'] starts with the documents it has in [fs],
    unchanged and in place. *)
Definition store_grows (fs fs' : firestore_server) : Prop :=
  ∀ name, collection_docs fs name `prefix_of` collection_docs fs' name.

(** A statement that, run in any world, keeps every stored document. *)
Definition keeps_documents {A} (m : M A) : Prop :=
  ∀ w, store_grows (firestore w) (firestore (m w).2).

Inductive setting : Type := GeminiKey | MapsKey | FirestoreCredentials.

(** A key is absent when its variable is unset or empty; the credentials
    are absent when the variable is unset or names a file that does not
    exist. *)
Definition absent (w : world) (s : setting) : Prop :=
  match s with
  | GeminiKey => opt_truthy (os_environ w !! "GEMINI_API_KEY") = false
  | MapsKey => opt_truthy (os_environ w !! "GOOGLE_MAPS_API_KEY") = false
  | FirestoreCredentials =>
      match os_environ w !! "FIRESTORE_CREDENTIALS" with
      | None => True
      | Some path => service_account_files w !! path = None
      end
  end.

(** What the user sees, and what the dependent functions return, when
    startup ended in the world [w'] with the globals [g]. *)
Definition reported (s : setting) (g : globals) (w' : world) : Prop :=
  match s with
  | GeminiKey =>
      st_error "Gemini API Key not found. Please set GEMINI_API_KEY in your .env file."
        ∈ page w'
  | MapsKey =>
      ∀ py_str location w1,
        find_nearby_clinics py_str g location w1
        = (Ok [],
           with_page (λ p, p ++ [st_error
             "Google Maps API Key is not set. Please add it to your .env file."]) w1)
  | FirestoreCredentials =>
      (st_error "Firestore credentials file not found. Please check your .env and file path."
         ∈ page w' ∨
       ∃ e, st_error ("Error initializing Firestore: " +:+ exn_str e) ∈ page w') ∧
      ∀ uid m d t w1,
        add_reminder_to_firestore g uid m d t w1
        = (Ok false,
           with_page (λ p, p ++ [st_error
             "Firestore is not initialized. Cannot add reminder."]) w1) ∧
        get_reminders_from_firestore g uid w1
        = (Ok [],
           with_page (λ p, p ++ [st_error
             "Firestore is not initialized. Cannot retrieve reminders."]) w1)
  end.

(** A key of a result is given: it is present and its value is true (not
    null, not empty, not zero). *)
Definition given (fields : gmap string json) (key : string) : bool :=
  match fields !! key with
  | Some v => truthy v
  | None => false
  end.

(** A complete result: an object that gives a name, a formatted address
    and a place id. *)
Definition complete (place : json) : bool :=
  match place with
  | JObj fields =>
      given fields "name" && given fields "formatted_address"
        && given fields "place_id"
  | _ => false
  end.

Section clinic_vocabulary.
Variable py_str : json → string.

(** A value as it reads inside a text: a string as it is, any other value
    as [str] writes it. *)
Definition shown_text (v : json) : string :=
  match v with
  | JStr s => s
  | _ => py_str v
  end.

(** The entry for a result with these fields; the link is the Google Maps
    search URL for the name and the address, with the place id. *)
Definition entry_of (name address rating place_id : json) : gmap string json :=
  {[ "name" := name;
     "address" := address;
     "rating" := rating;
     "link" := JStr ("https://www.google.com/maps/search/?api=1&query="
                       +:+ shown_text name +:+ "," +:+ shown_text address
                       +:+ "&query_place_id=" +:+ shown_text place_id) ]}.

(** [c] is the entry of the result [place]: the result is an object whose
    name, formatted_address and place_id are present and true, the rating
    is the result's or "N/A", and the link is built from the three. *)
Definition entry_of_place (place : json) (c : gmap string json) : Prop :=
  ∃ fields name address place_id,
    place = JObj fields ∧
    fields !! "name" = Some name ∧ truthy name = true ∧
    fields !! "formatted_address" = Some address ∧ truthy address = true ∧
    fields !! "place_id" = Some place_id ∧ truthy place_id = true ∧
    c = entry_of name address (default (JStr "N/A") (fields !! "rating")) place_id.

(** What the loop appends for a result, when that does not raise. *)
Definition listed (place : json) : option (gmap string json) :=
  match clinic_of_place py_str place with
  | Ok (Some c) => Some c
  | _ => None
  end.

(** The line the page shows for the [i]-th entry (counting from zero): its
    number, name, address and rating, and the words "View on Google Maps"
    linked to the entry's URL. *)
Definition clinic_line (i : nat) (c : gmap string json) : string :=
  "**" +:+ pretty (i + 1) +:+ ". "
    +:+ shown_text (default JNull (c !! "name")) +:+ "** – "
    +:+ shown_text (default JNull (c !! "address")) +:+ "<br>" +:+ "⭐ "
    +:+ shown_text (default JNull (c !! "rating"))
    +:+ " | [View on Google Maps]("
    +:+ shown_text (default JNull (c !! "link")) +:+ ")".

(** The two widgets the page gets for each clinic, numbered from [i + 1]. *)
Fixpoint clinic_widgets (i : nat) (clinics : list (gmap string json)) : list widget :=
  match clinics with
  | [] => []
  | c :: rest =>
      st_markdown (clinic_line i c) :: st_markdown "---" :: clinic_widgets (S i) rest
  end.
End clinic_vocabulary.

(** The request [find_nearby_clinics] sends. *)
Definition places_url : string :=
  "https://maps.googleapis.com/maps/api/place/textsearch/json".
Definition places_params (g : globals) (location : string) : gmap string string :=
  {[ "query" := "clinics or hospitals near " +:+ location;
     "key" := default EmptyString (GOOGLE_MAPS_API_KEY g) ]}.

(** [a] may stand before [b] in a result ordered by [field]. *)
Definition ordered_by (field : string) (a b : document) : Prop :=
  ∃ ka kb, a !! field = Some ka ∧ b !! field = Some kb ∧ fvalue_ltb kb ka = false.

(** Every document has the field. *)
Definition all_have (field : string) (docs : list document) : Prop :=
  Forall (λ d : document, is_Some (d !! field)) docs.

(** The places service finding nothing. *)
Definition no_results_fields : gmap string json :=
  {[ "status" := JStr "ZERO_RESULTS"; "results" := JArr [] ]}.

Definition no_results_world : world :=
  {| page := [];
     firestore := firestore configured_world;
     http := λ _ _, Response 200 (Some (JObj no_results_fields));
     chat := chat configured_world;
     os_environ := os_environ configured_world;
     service_account_files := service_account_files configured_world |}.

(** ** The session's user id (lines 173-174) *)

(** [s.replace(".", "")] *)
Fixpoint replace_dot (s : string) : string :=
  match s with
  | EmptyString => EmptyString
  | String c s' =>
      if Ascii.eqb c "." then replace_dot s' else String c (replace_dot s')
  end.

(** [if "user_id" not in st.session_state: st.session_state.user_id = ...],
    where [timestamp_str] is [str(datetime.now().timestamp())]. *)
Definition ensure_user_id (timestamp_str : string)
    (session_state : gmap string string) : gmap string string :=
  match session_state !! "user_id" with
  | Some _ => session_state
  | None => <["user_id" := "user_" +:+ replace_dot timestamp_str]> session_state
  end.

(** ** Further vocabulary *)

Global Instance time_eq_dec : EqDecision time.
Proof. solve_decision. Defined.

Global Instance exn_eq_dec : EqDecision exn.
Proof. solve_decision. Defined.

Global Instance res_eq_dec {A} `{EqDecision A} : EqDecision (res A).
Proof. solve_decision. Defined.

(** The widgets the page has in [w'] beyond those it had in [w]. *)
Definition rendered (w w' : world) : list widget :=
  drop (length (page w)) (page w').

(** The next [n] requests to the server are answered. *)
Definition up_for (n : nat) (fs : firestore_server) : Prop :=
  Forall (λ o : option exn, o = None) (take n (outages fs)).

(** Every reminder carries a creation time, none later than the server's
    clock: what holds of a collection that only the add function fills. *)
Definition stamped (fs : firestore_server) : Prop :=
  Forall (λ d : document,
            ∃ t, d !! "created_at" = Some (FTimestamp t) ∧ (t <= server_clock fs)%Z)
         (collection_docs fs "reminders").


(** A reply of the shape the places service documents, or a failure that
    [requests] reports: no connection, an error status, a body that is not
    JSON, or an object whose "results" are absent, empty, or a list whose
    first five items are objects. *)
Definition expected_reply (r : http_reply) : Prop :=
  match r with
  | ConnectionFailed _ => True
  | Response code body =>
      is_http_error code = true ∨
      match body with
      | None => True
      | Some (JObj fields) =>
          match fields !! "results" with
          | None => True
          | Some (JArr results) =>
              Forall (λ place, ∃ f, place = JObj f) (take 5 results)
          | Some v => truthy v = false
          end
      | Some _ => False
      end
  end.

(** An exchange that [requests] reports as failed: no connection, an error
    status, or a body that is not JSON. *)
Definition failed_exchange (r : http_reply) : Prop :=
  match r with
  | ConnectionFailed _ => True
  | Response code body => is_http_error code = true ∨ body = None
  end.

(** * Properties *)

(** ** The order on times *)

Lemma time_ltb_asym a b : time_ltb a b = true → time_ltb b a = false.
Proof.
  unfold time_ltb.
  repeat match goal with
         | |- context [(?x <? ?y)%N] => destruct (N.ltb_spec x y)
         end; intros; try done; lia.
Qed.

Lemma time_leb_trans a b c :
  time_ltb b a = false → time_ltb c b = false → time_ltb c a = false.
Proof.
  unfold time_ltb.
  repeat match goal with
         | |- context [(?x <? ?y)%N] => destruct (N.ltb_spec x y)
         end; intros; try done; lia.
Qed.

(** ** The stable sort *)

Section stable_sort_facts.
Context {K A : Type} (ltb : K → K → bool).

Lemma insert_by_key_perm (x : K * A) l : insert_by_key ltb x l ≡ₚ x :: l.
Proof.
  induction l as [|y l IH]; simpl; [done|].
  destruct (ltb y.1 x.1); [|done].
  rewrite IH. apply perm_swap.
Qed.

Lemma stable_sort_perm (l : list (K * A)) : stable_sort ltb l ≡ₚ l.
Proof.
  induction l as [|x l IH]; simpl; [done|].
  rewrite insert_by_key_perm. by rewrite IH.
Qed.

Hypothesis ltb_asym : ∀ a b, ltb a b = true → ltb b a = false.
Hypothesis leb_trans :
  ∀ a b c, ltb b a = false → ltb c b = false → ltb c a = false.

Lemma insert_by_key_sorted (x : K * A) l :
  StronglySorted (key_le ltb) l → StronglySorted (key_le ltb) (insert_by_key ltb x l).
Proof.
  induction 1 as [|y l Hs IH Hall]; simpl.
  - repeat constructor.
  - destruct (ltb y.1 x.1) eqn:Hyx.
    + constructor; [done|].
      rewrite insert_by_key_perm. constructor; [|done].
      by apply ltb_asym.
    + constructor; [by constructor|].
      constructor; [done|].
      eapply Forall_impl; [exact Hall|].
      intros z Hz. unfold key_le in *. by eapply leb_trans.
Qed.

Lemma stable_sort_sorted (l : list (K * A)) : StronglySorted (key_le ltb) (stable_sort ltb l).
Proof.
  induction l as [|x l IH]; simpl; [constructor|].
  by apply insert_by_key_sorted.
Qed.

(** Stability: elements with the same key keep their order. *)
Lemma insert_by_key_stable k (x : K * A) l :
  StronglySorted (key_le ltb) l →
  List.filter (same_key ltb k) (insert_by_key ltb x l)
  = List.filter (same_key ltb k) (x :: l).
Proof.
  induction 1 as [|y l Hs IH Hall]; [done|].
  cbn [insert_by_key]. destruct (ltb y.1 x.1) eqn:Hyx; [|done].
  cbn [List.filter] in *. rewrite IH.
  destruct (same_key ltb k x) eqn:Hx, (same_key ltb k y) eqn:Hy; try done.
  exfalso. unfold same_key in *.
  apply andb_prop in Hx as [Hx1 Hx2], Hy as [Hy1 Hy2].
  apply negb_true_iff in Hx1, Hx2, Hy1, Hy2.
  (* y < x, yet both sit at k *)
  pose proof (leb_trans _ _ _ Hx2 Hy1) as Hc. congruence.
Qed.

Lemma stable_sort_stable k (l : list (K * A)) :
  List.filter (same_key ltb k) (stable_sort ltb l) = List.filter (same_key ltb k) l.
Proof.
  induction l as [|x l IH]; [done|].
  cbn [stable_sort foldr]. fold (stable_sort ltb l).
  rewrite insert_by_key_stable by apply stable_sort_sorted.
  cbn [List.filter]. by rewrite IH.
Qed.
End stable_sort_facts.

(** ** Loops that may raise, and [sorted] *)

Lemma map_res_Forall2 {A B} (f : A → res B) l ys :
  map_res f l = Ok ys → Forall2 (λ x y, f x = Ok y) l ys.
Proof.
  revert ys. induction l as [|x l IH]; simpl; intros ys H.
  - injection H as <-. constructor.
  - destruct (f x) as [y|] eqn:Hx; [|done].
    destruct (map_res f l) as [ys'|]; [|done].
    injection H as <-. constructor; auto.
Qed.

Lemma map_res_total {A B} (f : A → res B) l :
  Forall (λ x, is_Ok (f x)) l → ∃ ys, map_res f l = Ok ys.
Proof.
  induction 1 as [|x l Hx _ [ys IH]]; simpl; [by eexists|].
  destruct (f x); [|done]. rewrite IH. by eexists.
Qed.

Lemma map_res_raises {A B} (f : A → res B) l1 x l2 e :
  Forall (λ y, is_Ok (f y)) l1 → f x = Raise e →
  map_res f (l1 ++ x :: l2) = Raise e.
Proof.
  intros Hl Hx. induction Hl as [|y l1 Hy _ IH]; simpl.
  - by rewrite Hx.
  - destruct (f y); [|done]. by rewrite IH.
Qed.

Lemma StronglySorted_snd {K A} (R : relation (K * A)) (P : K * A → Prop)
    (R' : relation A) l :
  (∀ p q, P p → P q → R p q → R' p.2 q.2) →
  Forall P l → StronglySorted R l → StronglySorted R' l.*2.
Proof.
  intros HR HP Hs. induction Hs as [|p l Hs IH Hall]; simpl; [constructor|].
  apply Forall_cons in HP as [Hp HP].
  constructor; [by apply IH|].
  apply Forall_fmap, Forall_forall. intros q Hq. simpl.
  rewrite Forall_forall in Hall, HP. eauto.
Qed.

Section sorted_facts.
Context {K A : Type} (ltb : K → K → bool) (key : A → res K).
Hypothesis ltb_asym : ∀ a b, ltb a b = true → ltb b a = false.
Hypothesis leb_trans :
  ∀ a b c, ltb b a = false → ltb c b = false → ltb c a = false.

Lemma sorted_total xs :
  Forall (λ x, is_Ok (key x)) xs → ∃ ys, sorted ltb xs key = Ok ys.
Proof.
  intros H. unfold sorted.
  edestruct (map_res_total (λ x, match key x with
                                 | Ok k => Ok (k, x)
                                 | Raise e => Raise e
                                 end) xs) as [keyed ->]; [|by eexists].
  eapply Forall_impl; [exact H|]. intros x. simpl. by destruct (key x).
Qed.

Lemma sorted_spec xs ys :
  sorted ltb xs key = Ok ys → ys ≡ₚ xs ∧ StronglySorted (ascending ltb key) ys.
Proof.
  unfold sorted. intros H.
  destruct (map_res _ xs) as [keyed|] eqn:Hk; [|done].
  injection H as <-. apply map_res_Forall2 in Hk.
  assert (keyed.*2 = xs ∧ Forall (λ p, key p.2 = Ok p.1) keyed) as [Hxs Hinv].
  { induction Hk as [|x p xs keyed Hp _ [IH1 IH2]]; [done|].
    destruct (key x) as [k|] eqn:Hx; [|done]. injection Hp as <-.
    split; [simpl; by f_equal|]. by constructor. }
  split.
  - rewrite <- Hxs. apply fmap_Permutation, stable_sort_perm.
  - eapply (StronglySorted_snd (key_le ltb) (λ p, key p.2 = Ok p.1)).
    + intros p q Hp Hq Hpq. exists p.1, q.1. done.
    + by rewrite stable_sort_perm.
    + by apply stable_sort_sorted.
Qed.

Lemma sorted_raises xs1 x xs2 e :
  Forall (λ y, is_Ok (key y)) xs1 → key x = Raise e →
  sorted ltb (xs1 ++ x :: xs2) key = Raise e.
Proof.
  intros H Hx. unfold sorted.
  rewrite (map_res_raises _ xs1 x xs2 e); [done| |by rewrite Hx].
  eapply Forall_impl; [exact H|]. intros y. simpl. by destruct (key y).
Qed.
End sorted_facts.

(** ** Reminder times and the stored string *)

Example strptime_0930 : strptime_HM "09:30" = Ok (mktime 9 30 0 0).
Proof. reflexivity. Qed.

Example strptime_one_digit_fields : strptime_HM "7:5" = Ok (mktime 7 5 0 0).
Proof. reflexivity. Qed.

Example strptime_hour_24 :
  strptime_HM "24:00"
  = Raise (ValueError "time data '24:00' does not match format '%H:%M'").
Proof. reflexivity. Qed.

Example strptime_minute_60 :
  strptime_HM "12:60" = Raise (ValueError "unconverted data remains: 0").
Proof. reflexivity. Qed.

Lemma reads_back_all :
  forallb (λ h, forallb (λ m, reads_back (N.of_nat h) (N.of_nat m)) (seq 0 60))
          (seq 0 24) = true.
Proof. vm_compute. reflexivity. Qed.

Lemma strptime_two_digits h m :
  (h < 24)%N → (m < 60)%N →
  strptime_HM (two_digits h +:+ ":" +:+ two_digits m) = Ok (mktime h m 0 0).
Proof.
  intros Hh Hm. pose proof reads_back_all as H.
  rewrite forallb_forall in H.
  specialize (H (N.to_nat h)). rewrite in_seq in H. specialize (H ltac:(lia)).
  rewrite forallb_forall in H.
  specialize (H (N.to_nat m)). rewrite in_seq in H. specialize (H ltac:(lia)).
  rewrite !N2Nat.id in H. unfold reads_back in H.
  destruct (strptime_HM _) as [[h' m' s' u']|]; [|done]. simpl in H.
  repeat (apply andb_prop in H as [H ?]).
  f_equal. f_equal; by apply N.eqb_eq.
Qed.

Lemma strptime_strftime t :
  valid_time t → strptime_HM (strftime_HM t) = Ok (truncate_to_minute t).
Proof. intros (Hh & Hm & _). by apply strptime_two_digits. Qed.

(** C1, as stated, fails: a time with seconds does not come back.  The
    widget's default value is [datetime.now().time()], which has them. *)
Lemma C1_seconds_are_lost :
  valid_time (mktime 10 30 45 0) ∧
  strptime_HM (strftime_HM (mktime 10 30 45 0)) ≠ Ok (mktime 10 30 45 0).
Proof. split; [unfold valid_time; simpl; lia | vm_compute; congruence]. Qed.

(** C1, amended: formatting a reminder time as "HH:MM" and parsing the
    string back yields the time truncated to the minute; a time whose
    seconds and microseconds are zero comes back unchanged. *)
Theorem C1_time_roundtrip t :
  valid_time t →
  strptime_HM (strftime_HM t) = Ok (truncate_to_minute t) ∧
  (second t = 0%N → microsecond t = 0%N → strptime_HM (strftime_HM t) = Ok t).
Proof.
  intros Hv. split; [by apply strptime_strftime|].
  intros Hs Hu. rewrite strptime_strftime by done.
  destruct t as [h m s u]; simpl in *. by subst.
Qed.

Lemma C1_time_roundtrip_witness :
  valid_time (mktime 21 5 0 0) ∧
  strptime_HM (strftime_HM (mktime 21 5 0 0)) = Ok (truncate_to_minute (mktime 21 5 0 0)) ∧
  (second (mktime 21 5 0 0) = 0%N → microsecond (mktime 21 5 0 0) = 0%N →
   strptime_HM (strftime_HM (mktime 21 5 0 0)) = Ok (mktime 21 5 0 0)).
Proof.
  split; [unfold valid_time; simpl; lia|].
  apply (C1_time_roundtrip (mktime 21 5 0 0)). unfold valid_time. simpl. lia.
Defined.

(** ** The reminder table *)

Lemma display_row_showable r :
  showable r → ∃ row, display_row r = Ok row ∧ row_of r row.
Proof.
  intros (Ht & [m Hm] & [d Hd]).
  unfold reminder_sort_key, display_row, doc_getitem in *.
  rewrite Hm, Hd. destruct (r !! "time") as [t|] eqn:Htime; [|done].
  simpl. eexists. split; [done|].
  repeat split; by simplify_map_eq.
Qed.

Lemma display_data_showable rs :
  Forall showable rs → ∃ rows, display_data rs = Ok rows ∧ Forall2 row_of rs rows.
Proof.
  unfold display_data.
  induction 1 as [|r rs Hr _ (rows & IH & Hrows)]; simpl.
  - eexists. split; [done|constructor].
  - destruct (display_row_showable r Hr) as (row & -> & Hrow).
    rewrite IH. eexists. split; [done|]. by constructor.
Qed.


Example sorted_reminders_sample :
  sorted_reminders [evening_dose; morning_dose] = Ok [morning_dose; evening_dose].
Proof. vm_compute. reflexivity. Qed.

(** Records with the same time stay in the order the query gave them. *)
Example sorted_reminders_ties :
  let second_evening_dose := <["medicine_name" := FStr "Atorvastatin"]> evening_dose in
  sorted_reminders [evening_dose; second_evening_dose; morning_dose]
  = Ok [morning_dose; evening_dose; second_evening_dose].
Proof. vm_compute. reflexivity. Qed.



(** ** Failures that are not caught *)

(** The list display has no [try]: the first record whose key cannot be
    computed ends the run with that exception, and nothing is rendered. *)
Lemma render_reminders_raises rs1 r rs2 e w :
  Forall (λ x, is_Ok (reminder_sort_key x)) rs1 →
  reminder_sort_key r = Raise e →
  render_reminders (rs1 ++ r :: rs2) w = (Raise e, w).
Proof.
  intros H1 Hr. unfold render_reminders, sorted_reminders.
  destruct (rs1 ++ r :: rs2) eqn:Hl; [by destruct rs1|]. rewrite <- Hl.
  unfold bind, lift. by rewrite (sorted_raises _ _ rs1 r rs2 e).
Qed.

Example render_reminders_without_dosage :
  (render_reminders [delete "dosage" morning_dose] configured_world).1
  = Raise (KeyError "dosage").
Proof. vm_compute. reflexivity. Qed.

(** [find_nearby_clinics] names two exception classes; an [AttributeError]
    from a response that is not an object is neither. *)
Example find_nearby_clinics_array_reply :
  (find_nearby_clinics sample_py_str configured_globals "Lucknow" array_reply_world).1
  = Raise (AttributeError "'list' object has no attribute 'get'").
Proof. vm_compute. reflexivity. Qed.

(** C3 fails on the code: with one stored record whose "time" is not
    "HH:MM", a run of the script ends with an uncaught [ValueError] raised
    by the list display. *)
Theorem C3_list_display_raises :
  (script sample_py_str sample_inputs tampered_world).1
  = Raise (ValueError "time data '9pm' does not match format '%H:%M'").
Proof. vm_compute. reflexivity. Qed.

(** ** The two Firestore functions *)

Lemma next_outage_clock fs : server_clock (next_outage fs).2 = server_clock fs.
Proof. unfold next_outage. by destruct (outages fs). Qed.

Lemma next_outage_ids fs : document_id (next_outage fs).2 = document_id fs.
Proof. unfold next_outage. by destruct (outages fs). Qed.

Lemma next_outage_collections fs : collections (next_outage fs).2 = collections fs.
Proof. unfold next_outage. by destruct (outages fs). Qed.

Lemma add_reminder_without_client g uid m d t w :
  db g = None →
  add_reminder_to_firestore g uid m d t w
  = (Ok false,
     with_page (λ p, p ++ [st_error "Firestore is not initialized. Cannot add reminder."]) w).
Proof. intros H. unfold add_reminder_to_firestore. by rewrite H. Qed.

Lemma add_reminder_write_fails g c uid m d t w e :
  db g = Some c → (next_outage (firestore w)).1 = Some e →
  add_reminder_to_firestore g uid m d t w
  = (Ok false,
     with_page (λ p, p ++ [st_error ("Error adding reminder to Firestore: " +:+ exn_str e)])
       (with_firestore (next_outage (firestore w)).2 w)).
Proof.
  intros Hdb He. unfold add_reminder_to_firestore. rewrite Hdb.
  unfold try_except, bind, collection_add, server_add.
  destruct (next_outage (firestore w)) as [o fs']. simpl in He. by subst o.
Qed.

Lemma add_reminder_write_succeeds g c uid m d t w :
  db g = Some c → (next_outage (firestore w)).1 = None →
  add_reminder_to_firestore g uid m d t w
  = (Ok true,
     with_firestore
       {| collections :=
            <["reminders" := collection_docs (firestore w) "reminders"
                ++ [stored_reminder (server_clock (firestore w)) uid m d t]]>
              (collections (firestore w));
          document_id := document_id (firestore w);
          server_clock := (server_clock (firestore w) + 1)%Z;
          outages := outages (next_outage (firestore w)).2 |} w).
Proof.
  intros Hdb He. unfold add_reminder_to_firestore. rewrite Hdb.
  unfold try_except, bind, collection_add, server_add.
  pose proof (next_outage_clock (firestore w)) as Hc.
  pose proof (next_outage_collections (firestore w)) as Hd.
  pose proof (next_outage_ids (firestore w)) as Hi.
  destruct (next_outage (firestore w)) as [o fs']. simpl in *. subst o.
  unfold collection_docs, stored_reminder. by rewrite Hc, Hd, Hi.
Qed.

Lemma get_reminders_loop (docs : list document) :
  foldl (λ reminders doc, reminders ++ [to_dict doc]) [] docs = docs.
Proof.
  enough (∀ acc, foldl (λ reminders doc, reminders ++ [to_dict doc]) acc docs
                 = acc ++ docs) as H by apply H.
  induction docs as [|d docs IH]; intros acc; simpl.
  - by rewrite app_nil_r.
  - rewrite IH. by rewrite <- app_assoc.
Qed.

Lemma get_reminders_without_client g uid w :
  db g = None →
  get_reminders_from_firestore g uid w
  = (Ok [],
     with_page (λ p, p ++ [st_error "Firestore is not initialized. Cannot retrieve reminders."]) w).
Proof. intros H. unfold get_reminders_from_firestore. by rewrite H. Qed.

Lemma get_reminders_query_fails g c uid w e :
  db g = Some c → (next_outage (firestore w)).1 = Some e →
  get_reminders_from_firestore g uid w
  = (Ok [],
     with_page (λ p, p ++ [st_error ("Error fetching reminders from Firestore: " +:+ exn_str e)])
       (with_firestore (next_outage (firestore w)).2 w)).
Proof.
  intros Hdb He. unfold get_reminders_from_firestore. rewrite Hdb.
  unfold try_except, bind, collection_where_order_by_stream, server_query.
  destruct (next_outage (firestore w)) as [o fs']. simpl in He. by subst o.
Qed.

Lemma get_reminders_query_succeeds g c uid w :
  db g = Some c → (next_outage (firestore w)).1 = None →
  get_reminders_from_firestore g uid w
  = (Ok (select_where_order_by (document_id (firestore w) "reminders")
           (collection_docs (firestore w) "reminders")
           "user_id" (FStr uid) "created_at"),
     with_firestore (next_outage (firestore w)).2 w).
Proof.
  intros Hdb He. unfold get_reminders_from_firestore. rewrite Hdb.
  unfold try_except, bind, collection_where_order_by_stream, server_query.
  pose proof (next_outage_collections (firestore w)) as Hd.
  pose proof (next_outage_ids (firestore w)) as Hi.
  destruct (next_outage (firestore w)) as [o fs']. simpl in *. subst o.
  unfold ret. rewrite get_reminders_loop. unfold collection_docs.
  by rewrite Hd, Hi.
Qed.

(** C10: [add_reminder_to_firestore] always returns a boolean and never
    raises; without a database handle it writes nothing and returns
    [False]; when the write raises it returns [False]; it returns [True]
    only when the document was written.  [get_reminders_from_firestore]
    always returns a list, and the empty one when there is no handle or the
    query fails. *)
Theorem C10_status_results g uid m d t w :
  (∃ ok w',
     add_reminder_to_firestore g uid m d t w = (Ok ok, w') ∧
     (db g = None → ok = false ∧ firestore w' = firestore w) ∧
     (∀ e, (next_outage (firestore w)).1 = Some e → ok = false) ∧
     (ok = false → collections (firestore w') = collections (firestore w)) ∧
     (ok = true →
        is_Some (db g) ∧ (next_outage (firestore w)).1 = None ∧
        collections (firestore w')
        = <["reminders" := collection_docs (firestore w) "reminders"
              ++ [stored_reminder (server_clock (firestore w)) uid m d t]]>
            (collections (firestore w)))) ∧
  (∃ reminders w',
     get_reminders_from_firestore g uid w = (Ok reminders, w') ∧
     (db g = None → reminders = []) ∧
     (∀ e, (next_outage (firestore w)).1 = Some e → reminders = [])).
Proof.
  destruct (db g) as [c|] eqn:Hdb;
    destruct ((next_outage (firestore w)).1) as [e|] eqn:Ho.
  - rewrite (add_reminder_write_fails g c uid m d t w e),
      (get_reminders_query_fails g c uid w e) by done.
    split; do 2 eexists; (split; [reflexivity|]); simpl;
      repeat split; try done.
    intros _. apply next_outage_collections.
  - rewrite (add_reminder_write_succeeds g c uid m d t w),
      (get_reminders_query_succeeds g c uid w) by done.
    split; do 2 eexists; (split; [reflexivity|]); simpl;
      repeat split; done.
  - rewrite add_reminder_without_client, get_reminders_without_client by done.
    split; do 2 eexists; (split; [reflexivity|]); simpl; repeat split; done.
  - rewrite add_reminder_without_client, get_reminders_without_client by done.
    split; do 2 eexists; (split; [reflexivity|]); simpl; repeat split; done.
Qed.

Example add_reminder_to_firestore_sample :
  let r := add_reminder_to_firestore configured_globals
             "user_17" "Paracetamol" "2 tablets" "13:00" configured_world in
  r.1 = Ok true ∧
  collection_docs (firestore r.2) "reminders"
  = [evening_dose; morning_dose; other_dose;
     {[ "user_id" := FStr "user_17"; "medicine_name" := FStr "Paracetamol";
        "dosage" := FStr "2 tablets"; "time" := FStr "13:00";
        "created_at" := FTimestamp 5 ]}].
Proof. vm_compute. split; reflexivity. Qed.

Example get_reminders_from_firestore_sample :
  (get_reminders_from_firestore configured_globals "user_17" configured_world).1
  = Ok [evening_dose; morning_dose].
Proof. vm_compute. reflexivity. Qed.

(** ** The document the add action writes *)

Lemma stored_reminder_fields now uid m d s :
  let doc := stored_reminder now uid m d s in
  dom doc = {[ "user_id"; "medicine_name"; "dosage"; "time"; "created_at" ]} ∧
  doc !! "user_id" = Some (FStr uid) ∧
  doc !! "medicine_name" = Some (FStr m) ∧
  doc !! "dosage" = Some (FStr d) ∧
  doc !! "time" = Some (FStr s) ∧
  doc !! "created_at" = Some (FTimestamp now) ∧
  doc !! "session_id" = None.
Proof.
  unfold stored_reminder, reminder_data. split.
  - rewrite dom_fmap_L, !dom_insert_L, dom_singleton_L. set_solver.
  - rewrite !lookup_fmap. repeat split; by simplify_map_eq.
Qed.

(** The add action either leaves every collection as it was or appends one
    document to "reminders". *)
Lemma submit_reminder_store g uid m d t w :
  let w' := (submit_reminder g uid m d t w).2 in
  collections (firestore w') = collections (firestore w) ∨
  collections (firestore w')
  = <["reminders" := collection_docs (firestore w) "reminders"
        ++ [stored_reminder (server_clock (firestore w)) uid m d (strftime_HM t)]]>
      (collections (firestore w)).
Proof.
  unfold submit_reminder.
  destruct (str_truthy m && str_truthy d && time_truthy t); [|by left].
  unfold bind.
  destruct (db g) as [c|] eqn:Hdb;
    [destruct ((next_outage (firestore w)).1) as [e|] eqn:Ho|].
  - rewrite (add_reminder_write_fails g c _ _ _ _ w e) by done.
    left. simpl. apply next_outage_collections.
  - rewrite (add_reminder_write_succeeds g c) by done. by right.
  - rewrite add_reminder_without_client by done. by left.
Qed.

Lemma new_documents_submit_reminder g uid m d t w :
  let new := new_documents w (submit_reminder g uid m d t w).2 "reminders" in
  new = [] ∨
  new = [stored_reminder (server_clock (firestore w)) uid m d (strftime_HM t)].
Proof.
  unfold new_documents.
  destruct (submit_reminder_store g uid m d t w) as [H|H];
    simpl in H; unfold collection_docs in *; rewrite H.
  - left. apply drop_all.
  - right. rewrite lookup_insert_eq. simpl. by rewrite drop_app_length.
Qed.

(** C4, as stated, fails: the document the add action writes has no field
    named session_id; the session identifier is stored under user_id. *)
Lemma C4_no_session_id_field :
  ∃ doc,
    new_documents configured_world
      (submit_reminder configured_globals "user_17" "Paracetamol" "2 tablets"
         (mktime 13 0 0 0) configured_world).2 "reminders" = [doc] ∧
    doc !! "session_id" = None ∧
    doc !! "user_id" = Some (FStr "user_17") ∧
    dom doc ≠ {[ "session_id"; "medicine_name"; "dosage"; "time"; "created_at" ]}.
Proof.
  exists (stored_reminder 5 "user_17" "Paracetamol" "2 tablets" "13:00").
  split; [vm_compute; reflexivity|].
  destruct (stored_reminder_fields 5 "user_17" "Paracetamol" "2 tablets" "13:00")
    as (_ & Huid & _ & _ & _ & _ & Hnone).
  repeat split; [done..|].
  intros H.
  assert ("session_id" ∈ dom (stored_reminder 5 "user_17" "Paracetamol"
                                 "2 tablets" "13:00")) as Hin
    by (rewrite H; set_solver).
  apply elem_of_dom in Hin as [v Hv]. congruence.
Qed.

(** C4, amended: every document the add action writes has exactly the
    fields user_id, medicine_name, dosage, time and created_at: the session
    identifier under user_id, the two texts, the time printed as "HH:MM",
    and the server's timestamp. *)
Theorem C4_written_document g uid m d t w doc :
  doc ∈ new_documents w (submit_reminder g uid m d t w).2 "reminders" →
  dom doc = {[ "user_id"; "medicine_name"; "dosage"; "time"; "created_at" ]} ∧
  doc !! "user_id" = Some (FStr uid) ∧
  doc !! "medicine_name" = Some (FStr m) ∧
  doc !! "dosage" = Some (FStr d) ∧
  doc !! "time" = Some (FStr (strftime_HM t)) ∧
  doc !! "created_at" = Some (FTimestamp (server_clock (firestore w))).
Proof.
  intros Hin.
  destruct (new_documents_submit_reminder g uid m d t w) as [H|H];
    rewrite H in Hin.
  - by apply elem_of_nil in Hin.
  - apply list_elem_of_singleton in Hin as ->.
    pose proof (stored_reminder_fields (server_clock (firestore w)) uid m d
                  (strftime_HM t)) as Hf.
    simpl in Hf. tauto.
Qed.

Lemma C4_written_document_witness :
  let w := configured_world in
  let doc := stored_reminder 5 "user_17" "Paracetamol" "2 tablets" "13:00" in
  doc ∈ new_documents w
          (submit_reminder configured_globals "user_17" "Paracetamol" "2 tablets"
             (mktime 13 0 0 0) w).2 "reminders" ∧
  (dom doc = {[ "user_id"; "medicine_name"; "dosage"; "time"; "created_at" ]} ∧
   doc !! "user_id" = Some (FStr "user_17") ∧
   doc !! "medicine_name" = Some (FStr "Paracetamol") ∧
   doc !! "dosage" = Some (FStr "2 tablets") ∧
   doc !! "time" = Some (FStr (strftime_HM (mktime 13 0 0 0))) ∧
   doc !! "created_at" = Some (FTimestamp (server_clock (firestore w)))).
Proof.
  intros w doc.
  assert (doc ∈ new_documents w
            (submit_reminder configured_globals "user_17" "Paracetamol" "2 tablets"
               (mktime 13 0 0 0) w).2 "reminders") as Hin.
  { assert (new_documents w
              (submit_reminder configured_globals "user_17" "Paracetamol" "2 tablets"
                 (mktime 13 0 0 0) w).2 "reminders" = [doc]) as ->
      by (vm_compute; reflexivity).
    apply list_elem_of_here. }
  split; [exact Hin|].
  exact (C4_written_document configured_globals "user_17" "Paracetamol" "2 tablets"
           (mktime 13 0 0 0) w doc Hin).
Defined.

(** ** Stored reminders are never changed or removed *)

Lemma store_grows_refl fs : store_grows fs fs.
Proof. by intros name. Qed.

Lemma store_grows_trans fs1 fs2 fs3 :
  store_grows fs1 fs2 → store_grows fs2 fs3 → store_grows fs1 fs3.
Proof. intros H1 H2 name. etrans; [apply H1 | apply H2]. Qed.

Lemma store_grows_same fs fs' :
  collections fs' = collections fs → store_grows fs fs'.
Proof. intros H name. unfold collection_docs. by rewrite H. Qed.

Lemma keeps_ret {A} (a : A) : keeps_documents (ret a).
Proof. intros w. apply store_grows_refl. Qed.

Lemma keeps_lift {A} (r : res A) : keeps_documents (lift r).
Proof. intros w. apply store_grows_refl. Qed.

Lemma keeps_st x : keeps_documents (st x).
Proof. intros w. apply store_grows_refl. Qed.

Lemma keeps_getenv name : keeps_documents (getenv name).
Proof. intros w. apply store_grows_refl. Qed.

Lemma keeps_path_exists path : keeps_documents (path_exists path).
Proof. intros w. unfold path_exists. destruct path; apply store_grows_refl. Qed.

Lemma keeps_from_service_account_json path :
  keeps_documents (from_service_account_json path).
Proof.
  intros w. unfold from_service_account_json.
  destruct path; [|apply store_grows_refl].
  destruct (service_account_files w !! _) as [[]|]; apply store_grows_refl.
Qed.

Lemma keeps_send_message s : keeps_documents (send_message s).
Proof. intros w. apply store_grows_refl. Qed.

Lemma keeps_requests_get url params : keeps_documents (requests_get url params).
Proof.
  intros w. unfold requests_get. destruct (http w url params); apply store_grows_refl.
Qed.

Lemma keeps_bind {A B} (m : M A) (k : A → M B) :
  keeps_documents m → (∀ a, keeps_documents (k a)) → keeps_documents (bind m k).
Proof.
  intros Hm Hk w. unfold bind. specialize (Hm w).
  destruct (m w) as [[a|e] w1]; [|done].
  eapply store_grows_trans; [exact Hm|]. apply Hk.
Qed.

Lemma keeps_try_except {A} (body : M A) handler :
  keeps_documents body →
  (∀ e h, handler e = Some h → keeps_documents h) →
  keeps_documents (try_except body handler).
Proof.
  intros Hb Hh w. unfold try_except. specialize (Hb w).
  destruct (body w) as [[a|e] w1]; [done|].
  destruct (handler e) as [h|] eqn:He; [|done].
  eapply store_grows_trans; [exact Hb|]. by eapply Hh.
Qed.

Lemma keeps_collection_add c name data : keeps_documents (collection_add c name data).
Proof.
  intros w. unfold collection_add, server_add.
  pose proof (next_outage_collections (firestore w)) as Hd.
  destruct (next_outage (firestore w)) as [[e|] fs']; simpl in *.
  - by apply store_grows_same.
  - intros n. unfold collection_docs. simpl. rewrite Hd.
    destruct (decide (name = n)) as [->|Hne].
    + rewrite lookup_insert_eq. simpl. by apply prefix_app_r.
    + by rewrite lookup_insert_ne.
Qed.

Lemma keeps_collection_where_order_by_stream c name field v order :
  keeps_documents (collection_where_order_by_stream c name field v order).
Proof.
  intros w. unfold collection_where_order_by_stream, server_query.
  pose proof (next_outage_collections (firestore w)) as Hd.
  destruct (next_outage (firestore w)) as [[e|] fs']; by apply store_grows_same.
Qed.

Create HintDb keeps.
#[local] Hint Resolve keeps_ret keeps_lift keeps_st keeps_getenv keeps_path_exists
  keeps_from_service_account_json keeps_send_message keeps_requests_get
  keeps_collection_add keeps_collection_where_order_by_stream : keeps.

(** Walks a function body: sequencing, handlers, and branches. *)
Ltac keeps_body :=
  repeat first
    [ progress auto with keeps
    | apply keeps_bind; [|intros ?]
    | apply keeps_try_except; [|intros ? ? [= <-]]
    | match goal with
      | |- keeps_documents (if ?b then _ else _) => destruct b
      | |- keeps_documents (match ?x with _ => _ end) => destruct x
      end ].

Lemma keeps_startup : keeps_documents startup.
Proof. unfold startup. keeps_body. Qed.

Lemma keeps_get_gemini_response s : keeps_documents (get_gemini_response s).
Proof. unfold get_gemini_response. keeps_body. Qed.

Lemma keeps_add_reminder_to_firestore g uid m d t :
  keeps_documents (add_reminder_to_firestore g uid m d t).
Proof. unfold add_reminder_to_firestore. keeps_body. Qed.

Lemma keeps_get_reminders_from_firestore g uid :
  keeps_documents (get_reminders_from_firestore g uid).
Proof. unfold get_reminders_from_firestore. keeps_body. Qed.

Lemma keeps_find_nearby_clinics py_str g location :
  keeps_documents (find_nearby_clinics py_str g location).
Proof.
  unfold find_nearby_clinics.
  destruct (negb _); [keeps_body|].
  apply keeps_try_except; [keeps_body|].
  intros e h He.
  destruct (is_RequestException e); [injection He as <-; keeps_body|].
  destruct (is_JSONDecodeError e); [injection He as <-; keeps_body|done].
Qed.

Lemma keeps_render_clinics py_str i clinics :
  keeps_documents (render_clinics py_str i clinics).
Proof.
  revert i. induction clinics as [|c clinics IH]; intros i; simpl; [keeps_body|].
  do 3 (apply keeps_bind; [keeps_body|intros ?]). apply IH.
Qed.

Lemma keeps_search_clinics py_str g location :
  keeps_documents (search_clinics py_str g location).
Proof.
  unfold search_clinics. destruct (str_truthy _); [|keeps_body].
  apply keeps_bind; [apply keeps_find_nearby_clinics|].
  intros [|c clinics]; [keeps_body|apply keeps_render_clinics].
Qed.

Lemma keeps_get_health_advice s : keeps_documents (get_health_advice s).
Proof.
  unfold get_health_advice. destruct (str_truthy _); [|keeps_body].
  apply keeps_bind; [apply keeps_get_gemini_response|]. intros. keeps_body.
Qed.

Lemma keeps_submit_reminder g uid m d t :
  keeps_documents (submit_reminder g uid m d t).
Proof.
  unfold submit_reminder. destruct (_ && _); [|keeps_body].
  apply keeps_bind; [apply keeps_add_reminder_to_firestore|]. intros. keeps_body.
Qed.

Lemma keeps_render_reminders rs : keeps_documents (render_reminders rs).
Proof. unfold render_reminders. keeps_body. Qed.

Lemma keeps_saved_reminders g uid : keeps_documents (saved_reminders g uid).
Proof.
  unfold saved_reminders.
  apply keeps_bind; [apply keeps_get_reminders_from_firestore|].
  intros. apply keeps_render_reminders.
Qed.

Lemma keeps_script py_str i : keeps_documents (script py_str i).
Proof.
  unfold script.
  apply keeps_bind; [apply keeps_startup|intros g].
  apply keeps_bind;
    [destruct (get_health_advice_clicked i);
       [apply keeps_get_health_advice|keeps_body]|intros _].
  apply keeps_bind;
    [destruct (add_reminder_clicked i);
       [apply keeps_submit_reminder|keeps_body]|intros _].
  apply keeps_bind; [apply keeps_saved_reminders|intros _].
  destruct (search_clinics_clicked i); [apply keeps_search_clinics|keeps_body].
Qed.

Lemma get_reminders_reads_only g uid w :
  collections (firestore (get_reminders_from_firestore g uid w).2)
  = collections (firestore w).
Proof.
  destruct (db g) as [c|] eqn:Hdb;
    [destruct ((next_outage (firestore w)).1) as [e|] eqn:Ho|].
  - rewrite (get_reminders_query_fails g c uid w e) by done.
    apply next_outage_collections.
  - rewrite (get_reminders_query_succeeds g c uid w) by done.
    apply next_outage_collections.
  - by rewrite get_reminders_without_client.
Qed.

Lemma add_reminder_creates_only g uid m d t w :
  let w' := (add_reminder_to_firestore g uid m d t w).2 in
  collections (firestore w') = collections (firestore w) ∨
  collections (firestore w')
  = <["reminders" := collection_docs (firestore w) "reminders"
        ++ [stored_reminder (server_clock (firestore w)) uid m d t]]>
      (collections (firestore w)).
Proof.
  destruct (db g) as [c|] eqn:Hdb;
    [destruct ((next_outage (firestore w)).1) as [e|] eqn:Ho|]; simpl.
  - rewrite (add_reminder_write_fails g c uid m d t w e) by done.
    left. apply next_outage_collections.
  - rewrite (add_reminder_write_succeeds g c uid m d t w) by done. by right.
  - rewrite add_reminder_without_client by done. by left.
Qed.

(** C6: no run of the script changes or removes a stored document: every
    collection keeps the documents it had, in place; the list function
    leaves the collections as they are, and the add function leaves them as
    they are or appends one document to "reminders". *)
Theorem C6_stored_reminders_immutable py_str i w g uid m d t :
  store_grows (firestore w) (firestore (script py_str i w).2) ∧
  collections (firestore (get_reminders_from_firestore g uid w).2)
  = collections (firestore w) ∧
  (collections (firestore (add_reminder_to_firestore g uid m d t w).2)
   = collections (firestore w) ∨
   collections (firestore (add_reminder_to_firestore g uid m d t w).2)
   = <["reminders" := collection_docs (firestore w) "reminders"
         ++ [stored_reminder (server_clock (firestore w)) uid m d t]]>
       (collections (firestore w))).
Proof.
  split; [apply keeps_script|].
  split; [apply get_reminders_reads_only|apply add_reminder_creates_only].
Qed.

Example script_adds_a_reminder :
  collection_docs
    (firestore (script sample_py_str
       {| session_user_id := "user_17";
          user_symptom_input := "I have fever and headache.";
          get_health_advice_clicked := true;
          medicine_name_input := "Paracetamol";
          dosage_input := "2 tablets";
          time_input := mktime 13 0 59 7;
          add_reminder_clicked := true;
          location_input := "Lucknow";
          search_clinics_clicked := true |} configured_world).2) "reminders"
  = [evening_dose; morning_dose; other_dose;
     stored_reminder 5 "user_17" "Paracetamol" "2 tablets" "13:00"].
Proof. vm_compute. reflexivity. Qed.

(** ** Absent configuration *)

(** Startup never raises, and its globals are what the environment holds. *)
Lemma startup_returns w :
  ∃ client w',
    startup w
    = (Ok {| GEMINI_API_KEY := os_environ w !! "GEMINI_API_KEY";
             GOOGLE_MAPS_API_KEY := os_environ w !! "GOOGLE_MAPS_API_KEY";
             db := client |}, w') ∧
    (∀ x, x ∈ page w → x ∈ page w') ∧
    (opt_truthy (os_environ w !! "GEMINI_API_KEY") = false →
     st_error "Gemini API Key not found. Please set GEMINI_API_KEY in your .env file."
       ∈ page w') ∧
    (absent w FirestoreCredentials →
     client = None ∧
     (st_error "Firestore credentials file not found. Please check your .env and file path."
        ∈ page w' ∨
      ∃ e, st_error ("Error initializing Firestore: " +:+ exn_str e) ∈ page w')).
Proof.
  unfold startup, bind, try_except, getenv, path_exists,
    from_service_account_json, st, ret, absent.
  cbn -[opt_truthy].
  destruct (opt_truthy (os_environ w !! "GEMINI_API_KEY")) eqn:Hg;
    cbn -[opt_truthy]; rewrite ?Hg; cbn -[opt_truthy];
    (destruct (os_environ w !! "FIRESTORE_CREDENTIALS") as [path|] eqn:Hcred;
     cbn -[opt_truthy];
     [destruct (service_account_files w !! path) as [[]|] eqn:Hfile;
      cbn -[opt_truthy]; rewrite ?Hcred; cbn -[opt_truthy];
      rewrite ?Hfile; cbn -[opt_truthy]|]);
    do 2 eexists; (split; [reflexivity|]); cbn;
    (split; [set_solver|]); (split; [set_solver|]);
    intros Hno; try done; (split; [done|]);
    first
      [ left; apply elem_of_app; right; left
      | right;
        exists (TypeError
          "stat: path should be string, bytes, os.PathLike or integer, not NoneType");
        apply elem_of_app; right; left ].
Qed.

(** C7: whichever configuration value is absent, startup ends normally, the
    page shows an error message, and the functions that depend on the value
    return their fallbacks: [False] from the add function, the empty list
    from the list function and from the clinic search. *)
Theorem C7_absent_configuration w s :
  absent w s → ∃ g w', startup w = (Ok g, w') ∧ reported s g w'.
Proof.
  intros H.
  destruct (startup_returns w) as (client & w' & Hs & _ & Hgemini & Hfs).
  do 2 eexists. split; [exact Hs|].
  destruct s; simpl in *.
  - by apply Hgemini.
  - intros py_str location w1. unfold find_nearby_clinics. simpl. by rewrite H.
  - destruct (Hfs H) as [-> Hmsg]. split; [done|].
    intros uid m d t w1.
    by rewrite add_reminder_without_client, get_reminders_without_client.
Qed.

Lemma C7_absent_configuration_witness :
  (absent bare_world GeminiKey ∧
   ∃ g w', startup bare_world = (Ok g, w') ∧ reported GeminiKey g w') ∧
  (absent bare_world MapsKey ∧
   ∃ g w', startup bare_world = (Ok g, w') ∧ reported MapsKey g w') ∧
  (absent bare_world FirestoreCredentials ∧
   ∃ g w', startup bare_world = (Ok g, w') ∧ reported FirestoreCredentials g w').
Proof.
  repeat split.
  - apply (C7_absent_configuration bare_world GeminiKey). reflexivity.
  - apply (C7_absent_configuration bare_world MapsKey). reflexivity.
  - apply (C7_absent_configuration bare_world FirestoreCredentials). exact I.
Defined.

Example startup_bare_world :
  page (startup bare_world).2
  = [st_error "DEBUG: GEMINI_API_KEY is None! Check your .env file.";
     st_error "Gemini API Key not found. Please set GEMINI_API_KEY in your .env file.";
     st_error "Error initializing Firestore: stat: path should be string, bytes, os.PathLike or integer, not NoneType"].
Proof. vm_compute. reflexivity. Qed.

(** ** The clinic search *)

Section clinic_facts.
Variable py_str : json → string.

Lemma truthy_default o : truthy (default JNull o) = true → ∃ v, o = Some v.
Proof. destruct o; [by eexists|done]. Qed.

Lemma clinic_of_place_Some place c :
  clinic_of_place py_str place = Ok (Some c) → entry_of_place py_str place c.
Proof.
  unfold clinic_of_place. destruct place as [| | | | |items|fields]; try done.
  simpl.
  destruct (truthy (default JNull (fields !! "name"))) eqn:Hn; [|done].
  destruct (truthy (default JNull (fields !! "formatted_address"))) eqn:Ha; [|done].
  destruct (truthy (default JNull (fields !! "place_id"))) eqn:Hp; [|done].
  simpl. intros [= <-].
  destruct (truthy_default _ Hn) as [name Hname].
  destruct (truthy_default _ Ha) as [address Haddress].
  destruct (truthy_default _ Hp) as [place_id Hplace_id].
  rewrite Hname, Haddress, Hplace_id in *. simpl in *.
  exists fields, name, address, place_id. by repeat split.
Qed.

Lemma clinics_loop_Ok places acc clinics :
  clinics_loop py_str places acc = Ok clinics →
  clinics = acc ++ omap (listed py_str) places.
Proof.
  revert acc. induction places as [|place places IH]; intros acc; simpl.
  - intros [= <-]. by rewrite app_nil_r.
  - unfold listed at 1.
    destruct (clinic_of_place py_str place) as [[c|]|]; [| |done]; intros H.
    + rewrite (IH _ H). by rewrite <- app_assoc.
    + by apply IH.
Qed.

Lemma clinics_loop_objects places acc :
  Forall (λ place, is_Ok (clinic_of_place py_str place)) places →
  clinics_loop py_str places acc = Ok (acc ++ omap (listed py_str) places).
Proof.
  intros H. revert acc.
  induction H as [|place places Hp _ IH]; intros acc; simpl.
  - by rewrite app_nil_r.
  - unfold listed at 1.
    destruct (clinic_of_place py_str place) as [[c|]|]; [| |done].
    + rewrite IH. by rewrite <- app_assoc.
    + apply IH.
Qed.

Lemma listed_entry place c : listed py_str place = Some c → entry_of_place py_str place c.
Proof.
  unfold listed.
  destruct (clinic_of_place py_str place) as [[c'|]|] eqn:H; try done.
  intros [= <-]. by apply clinic_of_place_Some.
Qed.

Lemma given_truthy fields key :
  given fields key = truthy (default JNull (fields !! key)).
Proof. unfold given. by destruct (fields !! key). Qed.

(** The loop appends an entry for the complete results, and for no other. *)
Lemma listed_complete place :
  listed py_str place = None ↔ complete place = false.
Proof.
  unfold listed, clinic_of_place, complete.
  destruct place as [| | | | |items|fields]; try done.
  rewrite !given_truthy. simpl.
  by destruct (_ && _ && _).
Qed.

Lemma next_code_point_cons a s :
  ∃ c rest, next_code_point (String a s) = Some (c, rest).
Proof. unfold next_code_point. destruct (default _ _) as [c rest]. eauto. Qed.

(** The decoded response, when the loop returns entries. *)
Lemma clinics_of_data_Ok data clinics c :
  clinics_of_data py_str data = Ok clinics → c ∈ clinics →
  ∃ fields results,
    data = JObj fields ∧ fields !! "results" = Some (JArr results) ∧
    clinics = omap (listed py_str) (take 5 results).
Proof.
  unfold clinics_of_data. destruct data as [| | | | |items|fields]; try done.
  simpl. destruct (fields !! "results") as [results|] eqn:Hr; simpl;
    [|intros [= <-] Hc; by apply elem_of_nil in Hc].
  destruct (truthy results) eqn:Ht;
    [|intros [= <-] Hc; by apply elem_of_nil in Hc].
  destruct results as [| | | |s|items|]; try done.
  - (* a string: its characters have no [get] *)
    destruct s as [|ch s]; [done|].
    destruct (next_code_point_cons ch s) as (c0 & rest & Hn).
    cbn [first_five res_bind].
    change (first_chars 5 (String ch s))
      with (match next_code_point (String ch s) with
            | None => []
            | Some (_, rest) => text_before (String ch s) rest :: first_chars 4 rest
            end).
    rewrite Hn. done.
  - simpl. intros H Hc. apply clinics_loop_Ok in H. simpl in H.
    exists fields, items. by repeat split.
Qed.
End clinic_facts.

(** A non-empty answer of [find_nearby_clinics] comes from a decoded
    response. *)
Lemma find_nearby_clinics_Ok py_str g location w clinics w' c :
  find_nearby_clinics py_str g location w = (Ok clinics, w') → c ∈ clinics →
  ∃ code data,
    http w places_url (places_params g location) = Response code (Some data) ∧
    clinics_of_data py_str data = Ok clinics.
Proof.
  unfold find_nearby_clinics. intros H Hc.
  assert (∀ msg (w1 : world),
            (st (st_error msg) ;; ret []) w1 = (Ok clinics, w') → False) as Hempty.
  { intros msg w1 [= <- _]. by apply elem_of_nil in Hc. }
  destruct (negb _); [by apply Hempty in H|].
  unfold try_except, requests_get in H. unfold bind at 1 2 3 in H.
  fold places_url in H. fold (places_params g location) in H.
  destruct (http w places_url (places_params g location)) as [msg|code body];
    simpl in H; [by apply Hempty in H|].
  unfold lift, raise_for_status in H. cbn -[is_http_error] in H.
  destruct (is_http_error code); cbn in H; [by apply Hempty in H|].
  unfold response_json in H. simpl in H.
  destruct body as [data|]; simpl in H; [|by apply Hempty in H].
  destruct (clinics_of_data py_str data) as [clinics'|e] eqn:Hd.
  - injection H as <- <-. by exists code, data.
  - destruct (is_RequestException e); [by apply Hempty in H|].
    destruct (is_JSONDecodeError e); [by apply Hempty in H|done].
Qed.

(** The answer for a response that decodes to an object with a list of
    result objects. *)
Lemma find_nearby_clinics_success py_str g location w code fields results :
  opt_truthy (GOOGLE_MAPS_API_KEY g) = true →
  http w places_url (places_params g location) = Response code (Some (JObj fields)) →
  is_http_error code = false →
  fields !! "results" = Some (JArr results) →
  Forall (λ place, is_Ok (clinic_of_place py_str place)) (take 5 results) →
  find_nearby_clinics py_str g location w
  = (Ok (omap (listed py_str) (take 5 results)), w).
Proof.
  intros Hkey Hhttp Hcode Hres Hobj. unfold find_nearby_clinics.
  rewrite Hkey. simpl.
  unfold try_except, requests_get. unfold bind at 1 2 3.
  fold places_url. fold (places_params g location). rewrite Hhttp.
  unfold lift, raise_for_status. cbn -[is_http_error]. rewrite Hcode.
  unfold clinics_of_data. simpl. rewrite Hres. simpl.
  destruct results as [|place results]; [done|].
  cbn [truthy first_five res_bind].
  by rewrite (clinics_loop_objects py_str _ [] Hobj).
Qed.

(** C8: each entry that [find_nearby_clinics] returns is a dictionary with
    the fields name, address, rating and link, made from one of the first
    five results of the response: the name, the address and the place id
    are that result's (all three present and true), the rating is the
    result's or "N/A", and the link is the Google Maps URL built from the
    three. *)
Theorem C8_clinic_entries py_str g location w clinics w' c :
  find_nearby_clinics py_str g location w = (Ok clinics, w') →
  c ∈ clinics →
  dom c = {[ "name"; "address"; "rating"; "link" ]} ∧
  ∃ code fields results place,
    http w places_url (places_params g location)
    = Response code (Some (JObj fields)) ∧
    fields !! "results" = Some (JArr results) ∧
    place ∈ take 5 results ∧
    entry_of_place py_str place c.
Proof.
  intros H Hc.
  destruct (find_nearby_clinics_Ok _ _ _ _ _ _ _ H Hc) as (code & data & Hhttp & Hd).
  destruct (clinics_of_data_Ok _ _ _ _ Hd Hc) as (fields & results & -> & Hr & ->).
  apply list_elem_of_omap in Hc as (place & Hplace & Hlisted).
  apply listed_entry in Hlisted.
  split.
  - destruct Hlisted as (? & ? & ? & ? & _ & _ & _ & _ & _ & _ & _ & ->).
    unfold entry_of. rewrite !dom_insert_L, dom_singleton_L. set_solver.
  - by exists code, fields, results, place.
Qed.

Lemma C8_clinic_entries_witness :
  let clinics := omap (listed sample_py_str) (take 5 sample_results) in
  let c := entry_of sample_py_str (JStr "Seva Dispensary")
             (JStr "4 Canal Road, Lucknow") (JStr "N/A") (JStr "pid-4") in
  find_nearby_clinics sample_py_str configured_globals "Lucknow" configured_world
  = (Ok clinics, configured_world) ∧
  c ∈ clinics ∧
  dom c = {[ "name"; "address"; "rating"; "link" ]} ∧
  ∃ code fields results place,
    http configured_world places_url (places_params configured_globals "Lucknow")
    = Response code (Some (JObj fields)) ∧
    fields !! "results" = Some (JArr results) ∧
    place ∈ take 5 results ∧
    entry_of_place sample_py_str place c.
Proof.
  intros clinics c.
  assert (find_nearby_clinics sample_py_str configured_globals "Lucknow" configured_world
          = (Ok clinics, configured_world)) as Hfind by (vm_compute; reflexivity).
  assert (c ∈ clinics) as Hc by (vm_compute; do 2 right; left).
  split; [exact Hfind|]. split; [exact Hc|].
  exact (C8_clinic_entries sample_py_str configured_globals "Lucknow" configured_world
           clinics configured_world c Hfind Hc).
Defined.

Section clinic_rendering.
Variable py_str : json → string.

Lemma clinic_markdown_entry i name address rating place_id :
  clinic_markdown py_str i (entry_of py_str name address rating place_id)
  = Ok (clinic_line py_str i (entry_of py_str name address rating place_id)).
Proof. reflexivity. Qed.

Lemma length_clinic_widgets i clinics :
  length (clinic_widgets py_str i clinics) = 2 * length clinics.
Proof.
  revert i. induction clinics as [|c clinics IH]; intros i; [done|].
  cbn [clinic_widgets length]. rewrite IH. lia.
Qed.

Lemma render_clinics_entries i clinics w :
  Forall (λ c, ∃ place, entry_of_place py_str place c) clinics →
  render_clinics py_str i clinics w
  = (Ok tt, with_page (λ p, p ++ clinic_widgets py_str i clinics) w).
Proof.
  intros H. revert i w.
  induction H as [|c clinics Hc _ IH]; intros i w.
  - unfold render_clinics, ret. f_equal.
    destruct w. unfold with_page. simpl. by rewrite app_nil_r.
  - destruct Hc as (place & fields & n & a & p & _ & _ & _ & _ & _ & _ & _ & ->).
    cbn [render_clinics clinic_widgets]. rewrite clinic_markdown_entry.
    unfold bind at 1 2 3. unfold lift, st. rewrite IH.
    f_equal. destruct w. unfold with_page. simpl. f_equal.
    by rewrite <- !app_assoc.
Qed.

(** The entries are those of the complete results, in order. *)
Lemma omap_listed places :
  Forall2 (entry_of_place py_str) (filter complete places)
    (omap (listed py_str) places).
Proof.
  induction places as [|place places IH]; [constructor|].
  rewrite filter_cons. simpl.
  destruct (listed py_str place) as [c|] eqn:Hl.
  - rewrite decide_True.
    + constructor; [by apply listed_entry|done].
    + apply Is_true_true. destruct (complete place) eqn:Hc; [done|].
      apply (proj2 (listed_complete py_str place)) in Hc. congruence.
  - rewrite decide_False; [done|].
    apply (proj1 (listed_complete py_str place)) in Hl. rewrite Hl. by intros [].
Qed.
End clinic_rendering.

(** C5, as stated, fails: of six results, the second has no name, and the
    search renders four clinics, not the first five results. *)
Lemma C5_result_without_name_skipped :
  let run := search_clinics sample_py_str configured_globals "Lucknow" configured_world in
  http configured_world places_url (places_params configured_globals "Lucknow")
  = Response 200 (Some sample_places_body) ∧
  length sample_results = 6 ∧
  (∃ clinics,
     (find_nearby_clinics sample_py_str configured_globals "Lucknow" configured_world).1
     = Ok clinics ∧ length clinics = 4) ∧
  run.1 = Ok tt ∧
  length (List.filter (λ x, match x with
                            | st_markdown "---" => false
                            | st_markdown _ => true
                            | _ => false
                            end) (page run.2)) = 4.
Proof.
  repeat split; try (vm_compute; reflexivity).
  exists (omap (listed sample_py_str) (take 5 sample_results)).
  split; vm_compute; reflexivity.
Qed.

(** C5, amended: for a successful response whose results are objects, the
    clinic search renders, in order and each with its link, those of the
    first five results that have a name, an address and a place id; when
    each of the first five (or of all, if there are fewer) has the three,
    it renders exactly those. *)
Theorem C5_first_five_results py_str g location w code fields results :
  str_truthy location = true →
  opt_truthy (GOOGLE_MAPS_API_KEY g) = true →
  http w places_url (places_params g location) = Response code (Some (JObj fields)) →
  is_http_error code = false →
  fields !! "results" = Some (JArr results) →
  Forall (λ place, ∃ f, place = JObj f) (take 5 results) →
  ∃ clinics,
    find_nearby_clinics py_str g location w = (Ok clinics, w) ∧
    Forall2 (entry_of_place py_str) (filter complete (take 5 results)) clinics ∧
    (Forall complete (take 5 results) →
     Forall2 (entry_of_place py_str) (take 5 results) clinics ∧
     length clinics = min 5 (length results)) ∧
    (clinics ≠ [] →
     search_clinics py_str g location w
     = (Ok tt, with_page (λ p, p ++ clinic_widgets py_str 0 clinics) w) ∧
     length (clinic_widgets py_str 0 clinics) = 2 * length clinics).
Proof.
  intros Hloc Hkey Hhttp Hcode Hres Hobj.
  exists (omap (listed py_str) (take 5 results)).
  assert (find_nearby_clinics py_str g location w
          = (Ok (omap (listed py_str) (take 5 results)), w)) as Hfind.
  { eapply find_nearby_clinics_success; try done.
    eapply Forall_impl; [exact Hobj|]. intros place [f ->].
    unfold clinic_of_place. simpl. by destruct (_ && _ && _). }
  pose proof (omap_listed py_str (take 5 results)) as Hshown.
  split; [done|]. split; [done|]. split.
  - intros Hall.
    assert (filter complete (take 5 results) = take 5 results) as Hfilter.
    { clear -Hall. induction Hall as [|place places Hp _ IH]; [done|].
      rewrite filter_cons, decide_True by done. by f_equal. }
    rewrite Hfilter in Hshown. split; [done|].
    apply Forall2_length in Hshown. by rewrite <- Hshown, length_take.
  - intros Hne. unfold search_clinics. rewrite Hloc. unfold bind. rewrite Hfind.
    destruct (omap (listed py_str) (take 5 results)) as [|c clinics] eqn:Hc; [done|].
    split; [|apply length_clinic_widgets].
    apply render_clinics_entries.
    eapply Forall2_Forall_r; [exact Hshown|].
    apply Forall_forall. intros place _ c' Hentry. by exists place.
Qed.

Lemma C5_first_five_results_witness :
  str_truthy "Lucknow" = true ∧
  opt_truthy (GOOGLE_MAPS_API_KEY configured_globals) = true ∧
  http configured_world places_url (places_params configured_globals "Lucknow")
  = Response 200 (Some (JObj sample_places_fields)) ∧
  is_http_error 200 = false ∧
  sample_places_fields !! "results" = Some (JArr sample_results) ∧
  Forall (λ place, ∃ f, place = JObj f) (take 5 sample_results) ∧
  ∃ clinics,
    find_nearby_clinics sample_py_str configured_globals "Lucknow" configured_world
    = (Ok clinics, configured_world) ∧
    Forall2 (entry_of_place sample_py_str)
      (filter complete (take 5 sample_results)) clinics ∧
    (Forall complete (take 5 sample_results) →
     Forall2 (entry_of_place sample_py_str) (take 5 sample_results) clinics ∧
     length clinics = min 5 (length sample_results)) ∧
    (clinics ≠ [] →
     search_clinics sample_py_str configured_globals "Lucknow" configured_world
     = (Ok tt, with_page (λ p, p ++ clinic_widgets sample_py_str 0 clinics)
                 configured_world) ∧
     length (clinic_widgets sample_py_str 0 clinics) = 2 * length clinics).
Proof.
  assert (Forall (λ place, ∃ f, place = JObj f) (take 5 sample_results)) as Hobj
    by (repeat constructor; by eexists).
  repeat (split; [first [reflexivity | exact Hobj]|]).
  exact (C5_first_five_results sample_py_str configured_globals "Lucknow"
           configured_world 200%N sample_places_fields sample_results
           eq_refl eq_refl eq_refl eq_refl eq_refl Hobj).
Defined.

(** ** The query behind the reminder list *)

Lemma string_ltb_asym a b : String.ltb a b = true → String.ltb b a = false.
Proof.
  unfold String.ltb. rewrite (String.compare_antisym b a).
  by destruct (String.compare a b).
Qed.

Lemma string_leb_trans a b c :
  String.ltb b a = false → String.ltb c b = false → String.ltb c a = false.
Proof.
  unfold String.ltb. intros Hba Hcb.
  destruct (String.compare c a) eqn:Hca; try done.
  destruct (String.compare b a) eqn:Hba'; try done.
  - apply String.compare_eq_iff in Hba' as ->. by rewrite Hca in Hcb.
  - assert (String.compare a b = Lt) as Hab
      by (rewrite String.compare_antisym, Hba'; done).
    apply String_as_OT.cmp_lt in Hca, Hab.
    pose proof (String_as_OT.lt_trans _ _ _ Hca Hab) as Hcb'.
    apply String_as_OT.cmp_lt in Hcb'. unfold String_as_OT.cmp in Hcb'.
    by rewrite Hcb' in Hcb.
Qed.

Lemma fvalue_ltb_asym a b : fvalue_ltb a b = true → fvalue_ltb b a = false.
Proof.
  destruct a as [|x|x|x|x|], b as [|y|y|y|y|]; simpl; try done.
  - by destruct x, y.
  - intros H. apply Z.ltb_lt in H. apply Z.ltb_ge. lia.
  - apply string_ltb_asym.
  - intros H. apply Z.ltb_lt in H. apply Z.ltb_ge. lia.
Qed.

Lemma fvalue_leb_trans a b c :
  fvalue_ltb b a = false → fvalue_ltb c b = false → fvalue_ltb c a = false.
Proof.
  destruct a as [|x|x|x|x|], b as [|y|y|y|y|], c as [|z|z|z|z|];
    simpl; try done.
  - by destruct x, y, z.
  - rewrite !Z.ltb_ge. lia.
  - apply string_leb_trans.
  - rewrite !Z.ltb_ge. lia.
Qed.

Lemma query_key_ltb_asym a b :
  query_key_ltb a b = true → query_key_ltb b a = false.
Proof.
  unfold query_key_ltb.
  destruct (fvalue_ltb a.1 b.1) eqn:Hab; simpl.
  - intros _. by rewrite (fvalue_ltb_asym _ _ Hab).
  - destruct (fvalue_ltb b.1 a.1); simpl; [done|]. apply string_ltb_asym.
Qed.

Lemma query_key_leb_trans a b c :
  query_key_ltb b a = false → query_key_ltb c b = false →
  query_key_ltb c a = false.
Proof.
  unfold query_key_ltb. intros Hba Hcb.
  apply orb_false_elim in Hba as [Hba Hba'], Hcb as [Hcb Hcb'].
  rewrite (fvalue_leb_trans _ _ _ Hba Hcb). simpl.
  destruct (fvalue_ltb a.1 c.1) eqn:Hac; [done|]. simpl.
  rewrite (fvalue_leb_trans _ _ _ Hcb Hac) in Hba'.
  rewrite (fvalue_leb_trans _ _ _ Hac Hba) in Hcb'.
  simpl in Hba', Hcb'. by eapply string_leb_trans.
Qed.

(** The documents a query looks at, with their ids. *)
Lemma identified_documents (ids : nat → string) (docs : list document) :
  (imap (λ i d, (ids i, d)) docs).*2 = docs.
Proof.
  revert ids. induction docs as [|d docs IH]; intros ids; [done|].
  simpl. f_equal. apply (IH (ids ∘ S)).
Qed.

Lemma select_where_order_by_spec ids docs field v order :
  let result := select_where_order_by ids docs field v order in
  result ≡ₚ filter (λ d : document, is_Some (d !! order))
              (filter (λ d : document, d !! field = Some v) docs) ∧
  StronglySorted (ordered_by order) result.
Proof.
  unfold select_where_order_by.
  rewrite <- (identified_documents ids docs) at 2.
  generalize (imap (λ i (d : document), (ids i, d)) docs). intros identified.
  assert ((filter (λ x : string * document, x.2 !! field = Some v) identified).*2
          = filter (λ d : document, d !! field = Some v) identified.*2) as <-.
  { induction identified as [|x l IH]; [done|].
    rewrite fmap_cons, !filter_cons.
    destruct (decide (x.2 !! field = Some v));
      [rewrite fmap_cons|]; by rewrite IH. }
  generalize (filter (λ x : string * document, x.2 !! field = Some v) identified).
  intros hits.
  set (keyed := omap (λ x : string * document,
                        (λ k, ((k, x.1), x.2)) <$> x.2 !! order) hits).
  assert (keyed.*2 = filter (λ d : document, is_Some (d !! order)) hits.*2
          ∧ Forall (λ p : fvalue * string * document, p.2 !! order = Some p.1.1) keyed)
    as [Hsnd Hinv].
  { subst keyed. induction hits as [|x hits [IH1 IH2]]; [done|].
    rewrite fmap_cons, filter_cons. destruct (x.2 !! order) as [k|] eqn:Hk.
    - rewrite decide_True by done. simpl. rewrite Hk. simpl.
      split; [by f_equal|by constructor].
    - rewrite decide_False by (by intros []). simpl. by rewrite Hk. }
  simpl. split.
  - rewrite <- Hsnd. apply fmap_Permutation, stable_sort_perm.
  - eapply (StronglySorted_snd (key_le query_key_ltb)
              (λ p : fvalue * string * document, p.2 !! order = Some p.1.1)).
    + intros p q Hp Hq Hpq. exists p.1.1, q.1.1. repeat split; try done.
      unfold key_le, query_key_ltb in Hpq.
      by apply orb_false_elim in Hpq as [? _].
    + by rewrite stable_sort_perm.
    + apply stable_sort_sorted;
        [apply query_key_ltb_asym|apply query_key_leb_trans].
Qed.

Lemma filter_all_have field (docs : list document) :
  all_have field docs → filter (λ d : document, is_Some (d !! field)) docs = docs.
Proof.
  induction 1 as [|d docs Hd _ IH]; [done|].
  rewrite filter_cons, decide_True by done. by f_equal.
Qed.

Lemma all_have_filter field (P : document → Prop) `{∀ d, Decision (P d)} docs :
  all_have field docs → all_have field (filter P docs).
Proof.
  unfold all_have. rewrite !Forall_forall. intros Hall d Hd.
  apply list_elem_of_filter in Hd as [_ Hd]. by apply Hall.
Qed.

(** The documents the add function writes have a creation time, so a
    collection that only this program fills keeps [all_have "created_at"]. *)
Lemma all_have_created_at_add g uid m d t w :
  all_have "created_at" (collection_docs (firestore w) "reminders") →
  all_have "created_at"
    (collection_docs (firestore (add_reminder_to_firestore g uid m d t w).2) "reminders").
Proof.
  intros Hall.
  destruct (add_reminder_creates_only g uid m d t w) as [H|H]; simpl in H;
    unfold collection_docs in *; rewrite H; [done|].
  rewrite lookup_insert_eq. simpl. apply Forall_app. split; [done|].
  constructor; [|constructor].
  destruct (stored_reminder_fields (server_clock (firestore w)) uid m d t)
    as (_ & _ & _ & _ & _ & Hc & _).
  by eexists.
Qed.

(** C9: the list function queries the collection "reminders": when the
    service answers, it returns exactly the documents of that collection
    whose user_id equals the given identifier, ordered by created_at; the
    add function appends its document to the same collection and to no
    other. *)
Theorem C9_query_by_user_ordered g client uid w :
  db g = Some client →
  (next_outage (firestore w)).1 = None →
  all_have "created_at" (collection_docs (firestore w) "reminders") →
  (∃ reminders w',
     get_reminders_from_firestore g uid w = (Ok reminders, w') ∧
     reminders ≡ₚ filter (λ d : document, d !! "user_id" = Some (FStr uid))
                    (collection_docs (firestore w) "reminders") ∧
     StronglySorted (ordered_by "created_at") reminders) ∧
  (∀ m d t, ∃ w1,
     add_reminder_to_firestore g uid m d t w = (Ok true, w1) ∧
     collection_docs (firestore w1) "reminders"
     = collection_docs (firestore w) "reminders"
         ++ [stored_reminder (server_clock (firestore w)) uid m d t] ∧
     ∀ name, name ≠ "reminders" →
       collection_docs (firestore w1) name = collection_docs (firestore w) name).
Proof.
  intros Hdb Hup Hall. split.
  - rewrite (get_reminders_query_succeeds g client uid w) by done.
    do 2 eexists. split; [reflexivity|].
    destruct (select_where_order_by_spec (document_id (firestore w) "reminders")
                (collection_docs (firestore w) "reminders")
                "user_id" (FStr uid) "created_at") as [Hperm Hsorted].
    split; [|done]. rewrite Hperm.
    by rewrite filter_all_have by by apply all_have_filter.
  - intros m d t.
    rewrite (add_reminder_write_succeeds g client uid m d t w) by done.
    eexists. split; [reflexivity|]. unfold collection_docs. simpl.
    split; [by rewrite lookup_insert_eq|].
    intros name Hne. by rewrite lookup_insert_ne.
Qed.

Lemma C9_query_by_user_ordered_witness :
  let g := configured_globals in
  let w := configured_world in
  db g = Some (FirestoreClient "serviceAccount.json") ∧
  (next_outage (firestore w)).1 = None ∧
  all_have "created_at" (collection_docs (firestore w) "reminders") ∧
  (∃ reminders w',
     get_reminders_from_firestore g "user_17" w = (Ok reminders, w') ∧
     reminders ≡ₚ filter (λ d : document, d !! "user_id" = Some (FStr "user_17"))
                    (collection_docs (firestore w) "reminders") ∧
     StronglySorted (ordered_by "created_at") reminders) ∧
  (∀ m d t, ∃ w1,
     add_reminder_to_firestore g "user_17" m d t w = (Ok true, w1) ∧
     collection_docs (firestore w1) "reminders"
     = collection_docs (firestore w) "reminders"
         ++ [stored_reminder (server_clock (firestore w)) "user_17" m d t] ∧
     ∀ name, name ≠ "reminders" →
       collection_docs (firestore w1) name = collection_docs (firestore w) name).
Proof.
  intros g w.
  assert (all_have "created_at" (collection_docs (firestore w) "reminders")) as Hall
    by (repeat constructor; by eexists).
  split; [reflexivity|]. split; [reflexivity|]. split; [exact Hall|].
  exact (C9_query_by_user_ordered g (FirestoreClient "serviceAccount.json")
           "user_17" w eq_refl eq_refl Hall).
Defined.

(** * Further properties *)

(** ** What [strptime] returns *)

Lemma char_in_spec lo hi c :
  char_in lo hi c = true → (lo <= c <= hi)%N.
Proof.
  unfold char_in. intros H. apply andb_prop in H as [H1 H2].
  apply N.leb_le in H1, H2. lia.
Qed.

Lemma decimal_value_ascii c :
  (48 <= c <= 57)%N → decimal_value c = Some (c - 48)%N.
Proof.
  intros [H1 H2]. unfold decimal_value.
  apply N.leb_le in H1, H2. by rewrite H1, H2.
Qed.

Lemma decimal_value_lt c d : decimal_value c = Some d → (d < 10)%N.
Proof.
  unfold decimal_value.
  destruct ((48 <=? c) && (c <=? 57))%N eqn:Hc.
  - apply andb_prop in Hc as [H1 H2]. apply N.leb_le in H1, H2.
    intros [= <-]. lia.
  - destruct (List.find _ _) as [r|]; [|done]. intros [= <-].
    apply N.mod_lt. lia.
Qed.

Lemma is_digit_spec c :
  is_digit c = true → ∃ d, decimal_value c = Some d ∧ (d < 10)%N.
Proof.
  unfold is_digit. destruct (decimal_value c) as [d|] eqn:H; [|done].
  intros _. exists d. split; [done|]. by apply decimal_value_lt in H.
Qed.

Lemma match_classes_one p s m r :
  match_classes [p] s = Some (m, r) →
  ∃ a, next_code_point s = Some (a, r) ∧ m = [a] ∧ p a = true.
Proof.
  simpl. destruct (next_code_point s) as [[a s']|]; [|done].
  destruct (p a) eqn:Hp; [|done]. intros [= <- <-]. by exists a.
Qed.

Lemma match_classes_two p q s m r :
  match_classes [p; q] s = Some (m, r) →
  ∃ a b, m = [a; b] ∧ p a = true ∧ q b = true.
Proof.
  simpl. destruct (next_code_point s) as [[a s']|]; [|done].
  destruct (p a) eqn:Hp; [|done].
  destruct (next_code_point s') as [[b s'']|]; [|done].
  destruct (q b) eqn:Hq; [|done].
  intros [= <- <-]. by exists a, b.
Qed.

(** A match of an alternation is a match of one of its alternatives. *)
Lemma match_alternatives_Some {A} alts (k : list N → string → option A) s x :
  match_alternatives alts k s = Some x →
  ∃ alt m r, alt ∈ alts ∧ match_classes alt s = Some (m, r) ∧ k m r = Some x.
Proof.
  induction alts as [|alt alts IH]; simpl; [done|].
  destruct (match_classes alt s) as [[m r]|] eqn:Hm.
  - destruct (k m r) as [y|] eqn:Hk.
    + intros [= <-]. exists alt, m, r. split; [left|done].
    + intros H. destruct (IH H) as (alt' & m' & r' & Hin & ? & ?).
      exists alt', m', r'. split; [by right|done].
  - intros H. destruct (IH H) as (alt' & m' & r' & Hin & ? & ?).
    exists alt', m', r'. split; [by right|done].
Qed.

Lemma regex_H_bound s m r :
  (∃ alt, alt ∈ regex_H ∧ match_classes alt s = Some (m, r)) →
  (int_of_digits 0 m < 24)%N.
Proof.
  intros (alt & Hin & Hm). unfold regex_H in Hin.
  repeat (apply elem_of_cons in Hin as [->|Hin]);
    [| | |by apply elem_of_nil in Hin].
  - apply match_classes_two in Hm as (a & b & -> & Ha & Hb).
    apply char_in_spec in Ha, Hb. simpl.
    rewrite !decimal_value_ascii by lia. simpl. lia.
  - apply match_classes_two in Hm as (a & b & -> & Ha & Hb).
    apply char_in_spec in Ha. apply is_digit_spec in Hb as (d & Hd & Hlt).
    simpl. rewrite decimal_value_ascii by lia. rewrite Hd. simpl. lia.
  - apply match_classes_one in Hm as (a & _ & -> & Ha).
    apply is_digit_spec in Ha as (d & Hd & Hlt).
    simpl. rewrite Hd. simpl. lia.
Qed.

Lemma regex_M_bound s m r :
  (∃ alt, alt ∈ regex_M ∧ match_classes alt s = Some (m, r)) →
  (int_of_digits 0 m < 60)%N.
Proof.
  intros (alt & Hin & Hm). unfold regex_M in Hin.
  repeat (apply elem_of_cons in Hin as [->|Hin]);
    [| |by apply elem_of_nil in Hin].
  - apply match_classes_two in Hm as (a & b & -> & Ha & Hb).
    apply char_in_spec in Ha. apply is_digit_spec in Hb as (d & Hd & Hlt).
    simpl. rewrite decimal_value_ascii by lia. rewrite Hd. simpl. lia.
  - apply match_classes_one in Hm as (a & _ & -> & Ha).
    apply is_digit_spec in Ha as (d & Hd & Hlt).
    simpl. rewrite Hd. simpl. lia.
Qed.

Lemma match_HM_bounds s h m rest :
  match_HM s = Some (h, m, rest) →
  (int_of_digits 0 h < 24)%N ∧ (int_of_digits 0 m < 60)%N.
Proof.
  unfold match_HM. intros H.
  apply match_alternatives_Some in H as (alt & h' & r & Hin & Hh & Hk).
  destruct (next_code_point r) as [[c r']|]; [|done].
  destruct (c =? 58)%N; [|done].
  apply match_alternatives_Some in Hk as (alt' & m' & r'' & Hin' & Hm & [= <- <- <-]).
  split; [eapply regex_H_bound|eapply regex_M_bound]; eauto.
Qed.

Lemma strptime_HM_Ok s t :
  strptime_HM s = Ok t →
  valid_time t ∧ second t = 0%N ∧ microsecond t = 0%N.
Proof.
  unfold strptime_HM. destruct (match_HM s) as [[[h m] rest]|] eqn:Hm; [|done].
  destruct rest; [|done]. intros [= <-].
  apply match_HM_bounds in Hm as [Hh Hmin].
  unfold valid_time. simpl. repeat split; lia.
Qed.

(** X1: whatever string the key function of the reminder list is given, a
    time it parses is a valid time of day with zero seconds and
    microseconds, and printing that time as "HH:MM" and parsing it again
    gives the same time. *)
Theorem strptime_HM_normal s t :
  strptime_HM s = Ok t →
  valid_time t ∧ second t = 0%N ∧ microsecond t = 0%N ∧
  strptime_HM (strftime_HM t) = Ok t.
Proof.
  intros H. destruct (strptime_HM_Ok s t H) as (Hv & Hs & Hu).
  repeat split; try done; try apply Hv.
  rewrite strptime_strftime by done.
  destruct t as [h m sec us]. simpl in *. by subst.
Qed.

Lemma strptime_HM_normal_witness :
  strptime_HM "7:5" = Ok (mktime 7 5 0 0) ∧
  valid_time (mktime 7 5 0 0) ∧ second (mktime 7 5 0 0) = 0%N ∧
  microsecond (mktime 7 5 0 0) = 0%N ∧
  strptime_HM (strftime_HM (mktime 7 5 0 0)) = Ok (mktime 7 5 0 0).
Proof.
  split; [reflexivity|].
  exact (strptime_HM_normal "7:5" (mktime 7 5 0 0) eq_refl).
Defined.

(** X2: two valid reminder times are stored as the same "HH:MM" string
    exactly when they agree on the hour and the minute. *)
Theorem strftime_HM_same_string a b :
  valid_time a → valid_time b →
  (strftime_HM a = strftime_HM b ↔ hour a = hour b ∧ minute a = minute b).
Proof.
  intros Ha Hb. split.
  - intros H. pose proof (strptime_strftime a Ha) as Hpa.
    rewrite H, (strptime_strftime b Hb) in Hpa.
    injection Hpa as Hh Hm. done.
  - intros [Hh Hm]. unfold strftime_HM. by rewrite Hh, Hm.
Qed.

Lemma strftime_HM_same_string_witness :
  valid_time (mktime 9 30 0 0) ∧ valid_time (mktime 9 30 41 7) ∧
  (strftime_HM (mktime 9 30 0 0) = strftime_HM (mktime 9 30 41 7) ↔
   hour (mktime 9 30 0 0) = hour (mktime 9 30 41 7) ∧
   minute (mktime 9 30 0 0) = minute (mktime 9 30 41 7)).
Proof.
  assert (valid_time (mktime 9 30 0 0)) as Ha by (unfold valid_time; simpl; lia).
  assert (valid_time (mktime 9 30 41 7)) as Hb by (unfold valid_time; simpl; lia).
  split; [exact Ha|]. split; [exact Hb|].
  exact (strftime_HM_same_string (mktime 9 30 0 0) (mktime 9 30 41 7) Ha Hb).
Defined.

(** ** Ties in the reminder table *)

Lemma time_ltb_neither a b :
  time_ltb a b = false → time_ltb b a = false → a = b.
Proof.
  unfold time_ltb. destruct a as [h m s u], b as [h' m' s' u']. simpl.
  repeat match goal with
         | |- context [(?x <? ?y)%N] => destruct (N.ltb_spec x y)
         end; intros; try done; f_equal; lia.
Qed.

Lemma time_ltb_irrefl a : time_ltb a a = false.
Proof.
  destruct (time_ltb a a) eqn:H; [|done]. by rewrite (time_ltb_asym a a H) in H.
Qed.

(** What [sorted] works on: the elements paired with their keys. *)
Lemma sorted_keyed {K A} (ltb : K → K → bool) (key : A → res K) xs ys :
  sorted ltb xs key = Ok ys →
  ∃ keyed, keyed.*2 = xs ∧ Forall (λ p, key p.2 = Ok p.1) keyed ∧
           ys = (stable_sort ltb keyed).*2.
Proof.
  unfold sorted. intros H.
  destruct (map_res _ xs) as [keyed|] eqn:Hk; [|done].
  injection H as <-. apply map_res_Forall2 in Hk. exists keyed.
  split; [|split; [|done]].
  - induction Hk as [|x p xs keyed Hp _ IH]; [done|].
    destruct (key x) as [k|]; [|done]. injection Hp as <-. simpl. by f_equal.
  - induction Hk as [|x p xs keyed Hp _ IH]; [done|].
    destruct (key x) as [k|] eqn:Hx; [|done]. injection Hp as <-. by constructor.
Qed.

Lemma filter_by_time (t : time) (keyed : list (time * document)) :
  Forall (λ p, reminder_sort_key p.2 = Ok p.1) keyed →
  filter (λ r, reminder_sort_key r = Ok t) keyed.*2
  = (List.filter (same_key time_ltb t) keyed).*2.
Proof.
  induction 1 as [|[k d] keyed Hp _ IH]; [done|]. simpl in Hp.
  rewrite fmap_cons, filter_cons. cbn [List.filter snd fst]. rewrite IH, Hp.
  destruct (decide (Ok k = Ok t)) as [[= ->]|Hne].
  - assert (same_key time_ltb t (t, d) = true) as ->; [|done].
    unfold same_key. simpl. by rewrite time_ltb_irrefl.
  - assert (same_key time_ltb t (k, d) = false) as ->; [|done].
    unfold same_key. simpl.
    destruct (time_ltb k t) eqn:H1; [done|].
    destruct (time_ltb t k) eqn:H2; [done|].
    destruct Hne. f_equal. by apply time_ltb_neither.
Qed.

(** X3: in the reminder table, the records of one and the same time stand
    in the order in which the query returned them. *)
Theorem sorted_reminders_keeps_ties user_reminders ordered t :
  sorted_reminders user_reminders = Ok ordered →
  filter (λ r, reminder_sort_key r = Ok t) ordered
  = filter (λ r, reminder_sort_key r = Ok t) user_reminders.
Proof.
  intros H. apply sorted_keyed in H as (keyed & <- & Hinv & ->).
  rewrite !filter_by_time; [|done|by rewrite stable_sort_perm].
  f_equal. apply stable_sort_stable; [apply time_ltb_asym|apply time_leb_trans].
Qed.

Lemma sorted_reminders_keeps_ties_witness :
  let late := <["medicine_name" := FStr "Atorvastatin"]> evening_dose in
  sorted_reminders [evening_dose; morning_dose; late]
  = Ok [morning_dose; evening_dose; late] ∧
  filter (λ r, reminder_sort_key r = Ok (mktime 21 15 0 0))
    [morning_dose; evening_dose; late]
  = filter (λ r, reminder_sort_key r = Ok (mktime 21 15 0 0))
      [evening_dose; morning_dose; late].
Proof.
  intros late.
  assert (sorted_reminders [evening_dose; morning_dose; late]
          = Ok [morning_dose; evening_dose; late]) as H by (vm_compute; reflexivity).
  split; [exact H|].
  exact (sorted_reminders_keeps_ties _ _ (mktime 21 15 0 0) H).
Defined.

(** ** When the reminder list renders *)

Lemma map_res_Raise {A B} (f : A → res B) l e :
  map_res f l = Raise e → ∃ x, x ∈ l ∧ f x = Raise e.
Proof.
  induction l as [|x l IH]; simpl; [done|].
  destruct (f x) as [y|e'] eqn:Hx.
  - destruct (map_res f l) as [ys|e']; [done|].
    intros [= ->]. destruct (IH eq_refl) as (x' & Hin & Hx').
    exists x'. split; [by right|done].
  - intros [= ->]. exists x. split; [left|done].
Qed.

Lemma map_res_Ok_all {A B} (f : A → res B) l ys :
  map_res f l = Ok ys → Forall (λ x, is_Ok (f x)) l.
Proof.
  revert ys. induction l as [|x l IH]; simpl; intros ys H; [constructor|].
  destruct (f x) as [y|] eqn:Hx; [|done].
  destruct (map_res f l) as [ys'|]; [|done].
  constructor; [by rewrite Hx|by eapply IH].
Qed.

Lemma sorted_Raise {K A} (ltb : K → K → bool) (key : A → res K) xs e :
  sorted ltb xs key = Raise e → ∃ x, x ∈ xs ∧ key x = Raise e.
Proof.
  unfold sorted. destruct (map_res _ xs) as [keyed|e'] eqn:Hk; [done|].
  intros [= ->]. apply map_res_Raise in Hk as (x & Hin & Hx).
  exists x. split; [done|]. destruct (key x); simpl in Hx; congruence.
Qed.

Lemma display_row_Raise r e : display_row r = Raise e → ¬ showable r.
Proof.
  unfold display_row, showable, reminder_sort_key, doc_getitem.
  destruct (r !! "medicine_name"); simpl;
    [|intros _ (_ & Hm & _); by apply is_Some_None in Hm].
  destruct (r !! "dosage"); simpl;
    [|intros _ (_ & _ & Hd); by apply is_Some_None in Hd].
  destruct (r !! "time"); simpl; [done|]. by intros _ (? & _).
Qed.

Lemma display_row_Ok r row : display_row r = Ok row → showable r ∨ ¬ is_Ok (reminder_sort_key r).
Proof.
  unfold display_row, showable, doc_getitem.
  destruct (r !! "medicine_name"); simpl; [|done].
  destruct (r !! "dosage"); simpl; [|done]. intros _.
  destruct (reminder_sort_key r); [left|right]; simpl; eauto.
Qed.

(** X4: the reminder list is rendered exactly when every record has a
    "time" that parses as "HH:MM", a "medicine_name" and a "dosage";
    otherwise the exception of the first failing step propagates and
    nothing is added to the page. *)
Theorem render_reminders_outcome user_reminders w :
  (Forall showable user_reminders ∧ (render_reminders user_reminders w).1 = Ok tt) ∨
  (¬ Forall showable user_reminders ∧
   ∃ e, render_reminders user_reminders w = (Raise e, w)).
Proof.
  destruct user_reminders as [|r0 rs0] eqn:Hrs; [by left|]. rewrite <- Hrs.
  assert (render_reminders user_reminders w
          = (ordered <- lift (sorted_reminders user_reminders) ;;
             rows <- lift (display_data ordered) ;;
             st (st_table rows)) w) as -> by by rewrite Hrs.
  clear Hrs r0 rs0. unfold bind, lift.
  destruct (sorted_reminders user_reminders) as [ordered|e] eqn:Hsorted.
  - pose proof Hsorted as Hkeyed.
    apply sorted_keyed in Hkeyed as (keyed & Hsnd & Hinv & _).
    assert (Forall (λ r, is_Ok (reminder_sort_key r)) user_reminders) as Hkeys.
    { rewrite <- Hsnd. apply Forall_fmap. eapply Forall_impl; [exact Hinv|].
      intros p Hp. simpl. by rewrite Hp. }
    destruct (sorted_spec time_ltb reminder_sort_key time_ltb_asym time_leb_trans
                _ _ Hsorted) as [Hperm _].
    destruct (display_data ordered) as [rows|e] eqn:Hrows.
    + left. split; [|done]. rewrite <- Hperm.
      apply map_res_Ok_all in Hrows.
      rewrite Forall_forall in Hrows, Hkeys. rewrite Forall_forall. intros r Hr.
      specialize (Hrows r Hr). destruct (display_row r) as [row|] eqn:Hrow; [|done].
      apply display_row_Ok in Hrow as [?|Hno]; [done|].
      destruct Hno. apply Hkeys. by rewrite <- Hperm.
    + right. split; [|by eexists].
      apply map_res_Raise in Hrows as (r & Hin & Hr).
      intros Hall. rewrite Forall_forall in Hall.
      apply (display_row_Raise r e Hr), Hall. by rewrite <- Hperm.
  - right. split; [|by eexists].
    apply sorted_Raise in Hsorted as (r & Hin & Hr).
    intros Hall. rewrite Forall_forall in Hall.
    destruct (Hall r Hin) as [Hok _]. by rewrite Hr in Hok.
Qed.

(** ** What the add action shows and writes *)

Lemma rendered_one w w' x :
  page w' = page w ++ [x] → rendered w w' = [x].
Proof. unfold rendered. intros ->. by rewrite drop_app_length. Qed.

Lemma rendered_two w w' x y :
  page w' = (page w ++ [x]) ++ [y] → rendered w w' = [x; y].
Proof.
  unfold rendered. intros ->. by rewrite <- app_assoc, drop_app_length.
Qed.

Lemma new_documents_same w w' name :
  collections (firestore w') = collections (firestore w) →
  new_documents w w' name = [].
Proof.
  intros H. unfold new_documents, collection_docs. rewrite H. apply drop_all.
Qed.

(** X5: the add action never raises.  Either it writes one document (the
    session's id, the two texts, the time as "HH:MM") and shows only the
    success message naming the medicine and that time, which takes both
    texts non-empty; or it writes nothing and shows only warnings or errors,
    at least one. *)
Theorem submit_reminder_outcome g uid m d t w :
  (submit_reminder g uid m d t w).1 = Ok tt ∧
  ((new_documents w (submit_reminder g uid m d t w).2 "reminders"
    = [stored_reminder (server_clock (firestore w)) uid m d (strftime_HM t)] ∧
    rendered w (submit_reminder g uid m d t w).2
    = [st_success ("Reminder for " +:+ m +:+ " at " +:+ strftime_HM t +:+ " added!")] ∧
    str_truthy m = true ∧ str_truthy d = true)
   ∨
   (new_documents w (submit_reminder g uid m d t w).2 "reminders" = [] ∧
    rendered w (submit_reminder g uid m d t w).2 ≠ [] ∧
    Forall (λ x, ∃ body, x = st_error body ∨ x = st_warning body)
      (rendered w (submit_reminder g uid m d t w).2))).
Proof.
  unfold submit_reminder.
  destruct (str_truthy m) eqn:Hm; [destruct (str_truthy d) eqn:Hd|]; simpl.
  - unfold bind.
    destruct (db g) as [c|] eqn:Hdb;
      [destruct ((next_outage (firestore w)).1) as [e|] eqn:Ho|].
    + rewrite (add_reminder_write_fails g c _ _ _ _ w e) by done.
      split; [done|]. right. simpl.
      rewrite (rendered_two w _ (st_error ("Error adding reminder to Firestore: " +:+ exn_str e))
                 (st_error "Failed to add reminder.")) by done.
      split; [apply new_documents_same, next_outage_collections|].
      split; [done|]. repeat constructor; eexists; by left.
    + rewrite (add_reminder_write_succeeds g c) by done.
      split; [done|]. left. simpl. split; [|split; [by apply rendered_one|done]].
      unfold new_documents, collection_docs. simpl.
      rewrite lookup_insert_eq. simpl. by rewrite drop_app_length.
    + rewrite add_reminder_without_client by done.
      split; [done|]. right. simpl.
      rewrite (rendered_two w _ (st_error "Firestore is not initialized. Cannot add reminder.")
                 (st_error "Failed to add reminder.")) by done.
      split; [by apply new_documents_same|].
      split; [done|]. repeat constructor; eexists; by left.
  - split; [done|]. right.
    rewrite (rendered_one w _ (st_warning "Please fill in all fields for the reminder."))
      by done.
    split; [by apply new_documents_same|]. split; [done|].
    repeat constructor. eexists; by right.
  - split; [done|]. right.
    rewrite (rendered_one w _ (st_warning "Please fill in all fields for the reminder."))
      by done.
    split; [by apply new_documents_same|]. split; [done|].
    repeat constructor. eexists; by right.
Qed.

(** ** Adding, then listing *)




Lemma select_where_order_by_other ids docs new field v order :
  new !! field ≠ Some v →
  select_where_order_by ids (docs ++ [new]) field v order
  = select_where_order_by ids docs field v order.
Proof.
  intros Hf. unfold select_where_order_by.
  rewrite imap_app. simpl.
  by rewrite filter_app, filter_cons, decide_False, filter_nil, app_nil_r.
Qed.

Lemma up_for_next n fs :
  up_for (S n) fs → (next_outage fs).1 = None ∧ up_for n (next_outage fs).2.
Proof.
  unfold up_for, next_outage. destruct (outages fs) as [|o rest] eqn:Ho; simpl.
  - intros _. rewrite Ho. by rewrite take_nil.
  - intros H. apply Forall_cons in H as [-> H]. done.
Qed.

Lemma next_outage_fst fs fs' :
  outages fs = outages fs' → (next_outage fs).1 = (next_outage fs').1.
Proof. unfold next_outage. intros ->. by destruct (outages fs'). Qed.

(** The reminders collection after a write that succeeded, by the server
    left after the add function. *)
Lemma add_reminder_then g c uid m d t w :
  db g = Some c → up_for 2 (firestore w) →
  let w1 := (add_reminder_to_firestore g uid m d t w).2 in
  collection_docs (firestore w1) "reminders"
  = collection_docs (firestore w) "reminders"
      ++ [stored_reminder (server_clock (firestore w)) uid m d t] ∧
  document_id (firestore w1) = document_id (firestore w) ∧
  (next_outage (firestore w1)).1 = None ∧
  server_clock (firestore w1) = (server_clock (firestore w) + 1)%Z.
Proof.
  intros Hdb Hup. apply up_for_next in Hup as [H1 Hup].
  apply up_for_next in Hup as [H2 _]. simpl.
  rewrite (add_reminder_write_succeeds g c uid m d t w) by done. simpl.
  split; [|split; [done|split; [|done]]].
  - unfold collection_docs. simpl. by rewrite lookup_insert_eq.
  - rewrite <- H2. by apply next_outage_fst.
Qed.



(** X7: a reminder added in one session does not change the list of
    another: with the service up, the list for a different user id is the
    same after the add as before it. *)
Theorem add_leaves_other_users g c uid other m d t w :
  db g = Some c → up_for 2 (firestore w) → uid ≠ other →
  (get_reminders_from_firestore g other
     (add_reminder_to_firestore g uid m d t w).2).1
  = (get_reminders_from_firestore g other w).1.
Proof.
  intros Hdb Hup Hne.
  destruct (add_reminder_then g c uid m d t w Hdb Hup) as (Hdocs & Hids & Hup1 & _).
  apply up_for_next in Hup as [Hup0 _].
  rewrite (get_reminders_query_succeeds g c other _) by done.
  rewrite (get_reminders_query_succeeds g c other w) by done. simpl.
  rewrite Hdocs, Hids. f_equal. apply select_where_order_by_other.
  destruct (stored_reminder_fields (server_clock (firestore w)) uid m d t)
    as (_ & Hu & _). rewrite Hu. congruence.
Qed.

Lemma add_leaves_other_users_witness :
  let g := configured_globals in
  let w := configured_world in
  db g = Some (FirestoreClient "serviceAccount.json") ∧
  up_for 2 (firestore w) ∧ "user_17" ≠ "user_99" ∧
  (get_reminders_from_firestore g "user_99"
     (add_reminder_to_firestore g "user_17" "Paracetamol" "2 tablets" "13:00" w).2).1
  = (get_reminders_from_firestore g "user_99" w).1.
Proof.
  intros g w.
  assert (up_for 2 (firestore w)) as Hup by constructor.
  assert ("user_17" ≠ "user_99") as Hne by discriminate.
  split; [reflexivity|]. split; [exact Hup|]. split; [exact Hne|].
  exact (add_leaves_other_users g (FirestoreClient "serviceAccount.json")
           "user_17" "user_99" "Paracetamol" "2 tablets" "13:00" w eq_refl Hup Hne).
Defined.

(** ** What the list function returns *)

Lemma select_where_order_by_elem ids docs field v order (d : document) :
  d ∈ select_where_order_by ids docs field v order →
  d ∈ docs ∧ d !! field = Some v ∧ is_Some (d !! order).
Proof.
  destruct (select_where_order_by_spec ids docs field v order) as [Hperm _].
  simpl in Hperm. rewrite Hperm. intros Hin.
  apply list_elem_of_filter in Hin as [Ho Hin].
  apply list_elem_of_filter in Hin as [Hf Hin]. done.
Qed.

(** X8: whatever the state of the service, every reminder the list function
    returns is a document of the "reminders" collection whose user_id is
    the identifier asked for. *)
Theorem get_reminders_only_own g uid w reminders w' r :
  get_reminders_from_firestore g uid w = (Ok reminders, w') →
  r ∈ reminders →
  r ∈ collection_docs (firestore w) "reminders" ∧
  r !! "user_id" = Some (FStr uid).
Proof.
  destruct (db g) as [c|] eqn:Hdb;
    [destruct ((next_outage (firestore w)).1) as [e|] eqn:Ho|].
  - rewrite (get_reminders_query_fails g c uid w e) by done.
    intros [= <- _] Hin. by apply elem_of_nil in Hin.
  - rewrite (get_reminders_query_succeeds g c uid w) by done.
    intros [= <- _] Hin. apply select_where_order_by_elem in Hin. tauto.
  - rewrite get_reminders_without_client by done.
    intros [= <- _] Hin. by apply elem_of_nil in Hin.
Qed.

Lemma get_reminders_only_own_witness :
  get_reminders_from_firestore configured_globals "user_17" configured_world
  = (Ok [evening_dose; morning_dose], configured_world) ∧
  morning_dose ∈ [evening_dose; morning_dose] ∧
  morning_dose ∈ collection_docs (firestore configured_world) "reminders" ∧
  morning_dose !! "user_id" = Some (FStr "user_17").
Proof.
  assert (get_reminders_from_firestore configured_globals "user_17" configured_world
          = (Ok [evening_dose; morning_dose], configured_world)) as H
    by (vm_compute; reflexivity).
  assert (morning_dose ∈ [evening_dose; morning_dose]) as Hin by (right; left).
  split; [exact H|]. split; [exact Hin|].
  exact (get_reminders_only_own configured_globals "user_17" configured_world
           [evening_dose; morning_dose] configured_world morning_dose H Hin).
Defined.

(** ** What the add action keeps true of the collection *)

Lemma stored_reminder_showable now uid m d t :
  valid_time t → showable (stored_reminder now uid m d (strftime_HM t)).
Proof.
  intros Hv.
  destruct (stored_reminder_fields now uid m d (strftime_HM t))
    as (_ & _ & Hm & Hd & Ht & _).
  unfold showable, reminder_sort_key, doc_getitem. rewrite Ht, Hm, Hd. simpl.
  rewrite strptime_strftime by done. by repeat split.
Qed.

(** The server after the add action: as before, up to the requests it has
    consumed, or with one more reminder and the clock advanced. *)
Lemma submit_reminder_server g uid m d t w :
  let fs' := firestore (submit_reminder g uid m d t w).2 in
  (collections fs' = collections (firestore w) ∧
   server_clock fs' = server_clock (firestore w)) ∨
  (collections fs'
   = <["reminders" := collection_docs (firestore w) "reminders"
         ++ [stored_reminder (server_clock (firestore w)) uid m d (strftime_HM t)]]>
       (collections (firestore w)) ∧
   server_clock fs' = (server_clock (firestore w) + 1)%Z).
Proof.
  unfold submit_reminder.
  destruct (str_truthy m && str_truthy d && time_truthy t); [|by left].
  unfold bind.
  destruct (db g) as [c|] eqn:Hdb;
    [destruct ((next_outage (firestore w)).1) as [e|] eqn:Ho|].
  - rewrite (add_reminder_write_fails g c _ _ _ _ w e) by done.
    left. simpl. split; [apply next_outage_collections|apply next_outage_clock].
  - rewrite (add_reminder_write_succeeds g c) by done. by right.
  - rewrite add_reminder_without_client by done. by left.
Qed.

(** X9: the add action keeps the collection fit for the list display: if
    every stored reminder can be shown and is stamped no later than the
    server's clock, the same holds after the action, for any valid time
    given. *)
Theorem submit_reminder_keeps_showable g uid m d t w :
  valid_time t →
  Forall showable (collection_docs (firestore w) "reminders") →
  stamped (firestore w) →
  Forall showable
    (collection_docs (firestore (submit_reminder g uid m d t w).2) "reminders") ∧
  stamped (firestore (submit_reminder g uid m d t w).2).
Proof.
  intros Hv Hshow Hst. unfold stamped in *.
  destruct (submit_reminder_server g uid m d t w) as [[Hc Hk]|[Hc Hk]];
    simpl in Hc, Hk; unfold collection_docs in *; rewrite Hc, Hk.
  - done.
  - rewrite lookup_insert_eq. simpl. split; apply Forall_app; split.
    + done.
    + constructor; [|constructor]. by apply stored_reminder_showable.
    + eapply Forall_impl; [exact Hst|]. intros doc (ts & Hts & Hle).
      exists ts. split; [done|lia].
    + constructor; [|constructor].
      destruct (stored_reminder_fields (server_clock (firestore w)) uid m d
                  (strftime_HM t)) as (_ & _ & _ & _ & _ & Hcreated & _).
      eexists. split; [exact Hcreated|lia].
Qed.

Lemma submit_reminder_keeps_showable_witness :
  let w := configured_world in
  let t := mktime 13 0 59 7 in
  valid_time t ∧
  Forall showable (collection_docs (firestore w) "reminders") ∧
  stamped (firestore w) ∧
  Forall showable
    (collection_docs
       (firestore (submit_reminder configured_globals "user_17" "Paracetamol"
                     "2 tablets" t w).2) "reminders") ∧
  stamped (firestore (submit_reminder configured_globals "user_17" "Paracetamol"
                        "2 tablets" t w).2).
Proof.
  intros w t.
  assert (valid_time t) as Hv by (unfold valid_time; simpl; lia).
  assert (Forall showable (collection_docs (firestore w) "reminders")) as Hs
    by (repeat constructor; try (by vm_compute); by eexists).
  assert (stamped (firestore w)) as Hst
    by (repeat constructor; eexists; (split; [reflexivity|simpl; lia])).
  split; [exact Hv|]. split; [exact Hs|]. split; [exact Hst|].
  exact (submit_reminder_keeps_showable configured_globals "user_17" "Paracetamol"
           "2 tablets" t w Hv Hs Hst).
Defined.

(** ** The clinic search: failures, empty answers, bounds *)

Lemma find_nearby_clinics_without_key py_str g location w :
  opt_truthy (GOOGLE_MAPS_API_KEY g) = false →
  find_nearby_clinics py_str g location w
  = (Ok [], with_page (λ p, p ++ [st_error
       "Google Maps API Key is not set. Please add it to your .env file."]) w).
Proof. intros H. unfold find_nearby_clinics. by rewrite H. Qed.

(** With a key, the function's answer by what the request meets. *)
Lemma find_nearby_clinics_by_reply py_str g location w :
  opt_truthy (GOOGLE_MAPS_API_KEY g) = true →
  find_nearby_clinics py_str g location w
  = match http w places_url (places_params g location) with
    | ConnectionFailed msg =>
        (Ok [], with_page (λ p, p ++ [st_error
           ("Error connecting to Google Maps API: " +:+ msg +:+
            ". Check your API key and network.")]) w)
    | Response code body =>
        if is_http_error code then
          (Ok [], with_page (λ p, p ++ [st_error
             ("Error connecting to Google Maps API: " +:+ (pretty code +:+ " Error") +:+
              ". Check your API key and network.")]) w)
        else
          match body with
          | None =>
              (Ok [], with_page (λ p, p ++ [st_error
                 ("Error connecting to Google Maps API: " +:+
                  "Expecting value: line 1 column 1 (char 0)" +:+
                  ". Check your API key and network.")]) w)
          | Some data =>
              match clinics_of_data py_str data with
              | Ok clinics => (Ok clinics, w)
              | Raise e =>
                  if is_RequestException e then
                    (Ok [], with_page (λ p, p ++ [st_error
                       ("Error connecting to Google Maps API: " +:+ exn_str e +:+
                        ". Check your API key and network.")]) w)
                  else if is_JSONDecodeError e then
                    (Ok [], with_page (λ p, p ++ [st_error
                       "Error decoding JSON response from Google Maps API."]) w)
                  else (Raise e, w)
              end
          end
    end.
Proof.
  intros Hkey. unfold find_nearby_clinics. rewrite Hkey. simpl.
  unfold try_except, requests_get. unfold bind at 1 2 3.
  fold places_url. fold (places_params g location).
  destruct (http w places_url (places_params g location)) as [msg|code body];
    [done|].
  unfold lift, raise_for_status. cbn -[is_http_error].
  destruct (is_http_error code); [done|]. cbn.
  destruct body as [data|]; [|done]. cbn.
  destruct (clinics_of_data py_str data) as [clinics|e]; [done|].
  destruct (is_RequestException e); [done|].
  by destruct (is_JSONDecodeError e).
Qed.

(** The loop never raises on objects, and what it returns are entries. *)
Lemma clinics_of_data_expected py_str fields :
  match fields !! "results" with
  | None => True
  | Some (JArr results) => Forall (λ place, ∃ f, place = JObj f) (take 5 results)
  | Some v => truthy v = false
  end →
  ∃ clinics,
    clinics_of_data py_str (JObj fields) = Ok clinics ∧
    Forall (λ c, ∃ place, entry_of_place py_str place c) clinics.
Proof.
  unfold clinics_of_data. simpl.
  destruct (fields !! "results") as [v|] eqn:Hv; simpl;
    [|intros _; exists []; by split].
  destruct v as [| | | | |results|]; try (intros ->; exists []; by split).
  intros Hobj. destruct results as [|place results]; [exists []; by split|].
  cbn [truthy first_five res_bind].
  rewrite (clinics_loop_objects py_str _ []).
  - eexists. split; [done|]. rewrite app_nil_l.
    apply Forall_forall. intros c Hc.
    apply list_elem_of_omap in Hc as (p & _ & Hp).
    exists p. by apply listed_entry.
  - eapply Forall_impl; [exact Hobj|]. intros p [f ->].
    unfold clinic_of_place. simpl. by destruct (_ && _ && _).
Qed.

(** On an expected reply the function returns, and returns entries. *)
Lemma find_nearby_clinics_expected py_str g location w :
  expected_reply (http w places_url (places_params g location)) →
  ∃ clinics w',
    find_nearby_clinics py_str g location w = (Ok clinics, w') ∧
    Forall (λ c, ∃ place, entry_of_place py_str place c) clinics ∧
    firestore w' = firestore w.
Proof.
  intros Hexp.
  destruct (opt_truthy (GOOGLE_MAPS_API_KEY g)) eqn:Hkey;
    [|rewrite find_nearby_clinics_without_key by done; by do 2 eexists].
  rewrite find_nearby_clinics_by_reply by done.
  destruct (http w places_url (places_params g location)) as [msg|code body];
    [by do 2 eexists|].
  destruct (is_http_error code) eqn:Hcode; [by do 2 eexists|].
  cbn -[is_http_error] in Hexp. destruct Hexp as [?|Hexp]; [congruence|].
  destruct body as [data|]; [|by do 2 eexists].
  destruct data as [| | | | | |fields]; try done.
  destruct (clinics_of_data_expected py_str fields Hexp) as (clinics & -> & Hall).
  by do 2 eexists.
Qed.

Lemma length_omap_le {A B} (f : A → option B) (l : list A) :
  length (omap f l) ≤ length l.
Proof.
  induction l as [|x l IH]; [done|].
  change (omap f (x :: l))
    with (match f x with Some y => y :: omap f l | None => omap f l end).
  destruct (f x); simpl; lia.
Qed.

(** X10: with a key and a place to look for, when the request fails (no
    connection, an error status, or a body that is not JSON) the search
    does not raise: it shows one connection error, then the note that no
    clinics were found, and leaves the database alone. *)
Theorem search_clinics_failed_exchange py_str g location w :
  str_truthy location = true →
  opt_truthy (GOOGLE_MAPS_API_KEY g) = true →
  failed_exchange (http w places_url (places_params g location)) →
  (search_clinics py_str g location w).1 = Ok tt ∧
  firestore (search_clinics py_str g location w).2 = firestore w ∧
  ∃ msg,
    rendered w (search_clinics py_str g location w).2
    = [st_error ("Error connecting to Google Maps API: " +:+ msg +:+
                 ". Check your API key and network.");
       st_info "No clinics found for your search. Try a different location or check your API key."].
Proof.
  intros Hloc Hkey Hfail. unfold search_clinics. rewrite Hloc. unfold bind.
  rewrite find_nearby_clinics_by_reply by done.
  destruct (http w places_url (places_params g location)) as [msg|code body].
  - split; [done|]. split; [done|]. exists msg. by apply rendered_two.
  - cbn -[is_http_error] in Hfail.
    destruct (is_http_error code) eqn:Hcode.
    + split; [done|]. split; [done|]. eexists. by apply rendered_two.
    + destruct Hfail as [?| ->]; [congruence|].
      split; [done|]. split; [done|]. eexists. by apply rendered_two.
Qed.

Lemma search_clinics_failed_exchange_witness :
  str_truthy "Lucknow" = true ∧
  opt_truthy (GOOGLE_MAPS_API_KEY configured_globals) = true ∧
  failed_exchange (http bare_world places_url (places_params configured_globals "Lucknow")) ∧
  (search_clinics sample_py_str configured_globals "Lucknow" bare_world).1 = Ok tt ∧
  firestore (search_clinics sample_py_str configured_globals "Lucknow" bare_world).2
  = firestore bare_world ∧
  ∃ msg,
    rendered bare_world
      (search_clinics sample_py_str configured_globals "Lucknow" bare_world).2
    = [st_error ("Error connecting to Google Maps API: " +:+ msg +:+
                 ". Check your API key and network.");
       st_info "No clinics found for your search. Try a different location or check your API key."].
Proof.
  split; [reflexivity|]. split; [reflexivity|]. split; [exact I|].
  exact (search_clinics_failed_exchange sample_py_str configured_globals "Lucknow"
           bare_world eq_refl eq_refl I).
Defined.

(** X11: whatever the response, [find_nearby_clinics] returns at most five
    entries. *)
Theorem find_nearby_clinics_at_most_five py_str g location w clinics w' :
  find_nearby_clinics py_str g location w = (Ok clinics, w') →
  length clinics ≤ 5.
Proof.
  intros H. destruct clinics as [|c clinics]; [simpl; lia|].
  destruct (find_nearby_clinics_Ok _ _ _ _ _ _ c H) as (code & data & _ & Hd);
    [left|].
  destruct (clinics_of_data_Ok _ _ _ c Hd) as (fields & results & _ & _ & ->);
    [left|].
  etrans; [apply length_omap_le|]. rewrite length_take. lia.
Qed.

Lemma find_nearby_clinics_at_most_five_witness :
  find_nearby_clinics sample_py_str configured_globals "Lucknow" configured_world
  = (Ok (omap (listed sample_py_str) (take 5 sample_results)), configured_world) ∧
  length (omap (listed sample_py_str) (take 5 sample_results)) ≤ 5.
Proof.
  assert (find_nearby_clinics sample_py_str configured_globals "Lucknow" configured_world
          = (Ok (omap (listed sample_py_str) (take 5 sample_results)), configured_world))
    as H by (vm_compute; reflexivity).
  split; [exact H|].
  exact (find_nearby_clinics_at_most_five sample_py_str configured_globals "Lucknow"
           configured_world _ configured_world H).
Defined.

(** X12: when the response is an object without results (the key absent,
    or its value empty), the search shows only the note that no clinics
    were found: no error, and nothing raised. *)
Theorem search_clinics_no_results py_str g location w code fields :
  str_truthy location = true →
  opt_truthy (GOOGLE_MAPS_API_KEY g) = true →
  http w places_url (places_params g location) = Response code (Some (JObj fields)) →
  is_http_error code = false →
  truthy (default JNull (fields !! "results")) = false →
  search_clinics py_str g location w
  = (Ok tt,
     with_page (λ p, p ++ [st_info
       "No clinics found for your search. Try a different location or check your API key."]) w).
Proof.
  intros Hloc Hkey Hhttp Hcode Hres. unfold search_clinics. rewrite Hloc.
  unfold bind. rewrite find_nearby_clinics_by_reply by done.
  rewrite Hhttp, Hcode. unfold clinics_of_data. simpl. by rewrite Hres.
Qed.

Lemma search_clinics_no_results_witness :
  str_truthy "Lucknow" = true ∧
  opt_truthy (GOOGLE_MAPS_API_KEY configured_globals) = true ∧
  http no_results_world places_url (places_params configured_globals "Lucknow")
  = Response 200 (Some (JObj no_results_fields)) ∧
  is_http_error 200 = false ∧
  truthy (default JNull (no_results_fields !! "results")) = false ∧
  search_clinics sample_py_str configured_globals "Lucknow" no_results_world
  = (Ok tt,
     with_page (λ p, p ++ [st_info
       "No clinics found for your search. Try a different location or check your API key."])
       no_results_world).
Proof.
  repeat (split; [reflexivity|]).
  exact (search_clinics_no_results sample_py_str configured_globals "Lucknow"
           no_results_world 200%N no_results_fields
           eq_refl eq_refl eq_refl eq_refl eq_refl).
Defined.

Lemma search_clinics_expected py_str g location w :
  expected_reply (http w places_url (places_params g location)) →
  (search_clinics py_str g location w).1 = Ok tt.
Proof.
  intros Hexp. unfold search_clinics.
  destruct (str_truthy location); [|done]. unfold bind.
  destruct (find_nearby_clinics_expected py_str g location w Hexp)
    as (clinics & w' & -> & Hentries & _).
  destruct clinics as [|c clinics]; [done|].
  by rewrite render_clinics_entries.
Qed.

(** X13: on any reply of the expected kinds (a failed exchange, or an
    object whose results are absent, empty, or a list whose first five
    items are objects) the clinic search ends without raising and leaves
    the database as it was, whatever the key and the place typed. *)
Theorem search_clinics_never_raises py_str g location w :
  expected_reply (http w places_url (places_params g location)) →
  (search_clinics py_str g location w).1 = Ok tt ∧
  firestore (search_clinics py_str g location w).2 = firestore w.
Proof.
  intros Hexp. split; [by apply search_clinics_expected|].
  unfold search_clinics. destruct (str_truthy location); [|done]. unfold bind.
  destruct (find_nearby_clinics_expected py_str g location w Hexp)
    as (clinics & w' & -> & Hentries & Hfs).
  destruct clinics as [|c clinics]; [done|].
  by rewrite render_clinics_entries.
Qed.

Lemma search_clinics_never_raises_witness :
  expected_reply (http configured_world places_url
                    (places_params configured_globals "Lucknow")) ∧
  (search_clinics sample_py_str configured_globals "Lucknow" configured_world).1 = Ok tt ∧
  firestore (search_clinics sample_py_str configured_globals "Lucknow" configured_world).2
  = firestore configured_world.
Proof.
  assert (expected_reply (http configured_world places_url
                            (places_params configured_globals "Lucknow"))) as H.
  { right. simpl. repeat constructor; by eexists. }
  split; [exact H|].
  exact (search_clinics_never_raises sample_py_str configured_globals "Lucknow"
           configured_world H).
Defined.

(** ** Runs that do not raise *)

Lemma render_reminders_showable rs w :
  Forall showable rs →
  ∃ w', render_reminders rs w = (Ok tt, w') ∧
        firestore w' = firestore w ∧ http w' = http w.
Proof.
  intros Hall. destruct rs as [|r0 rs0] eqn:Hrs; [by eexists|]. rewrite <- Hrs in *.
  destruct (sorted_total time_ltb reminder_sort_key rs) as [ordered Hsorted].
  { eapply Forall_impl; [exact Hall|]. by intros x (? & _). }
  destruct (sorted_spec time_ltb reminder_sort_key time_ltb_asym time_leb_trans
              _ _ Hsorted) as [Hperm _].
  destruct (display_data_showable ordered) as (rows & Hrows & _);
    [by rewrite Hperm|].
  assert (render_reminders rs w
          = (ordered <- lift (sorted_reminders rs) ;;
             rows <- lift (display_data ordered) ;;
             st (st_table rows)) w) as -> by by rewrite Hrs.
  unfold bind, lift, sorted_reminders. rewrite Hsorted, Hrows. by eexists.
Qed.

Lemma get_reminders_frame g uid w :
  ∃ rs w',
    get_reminders_from_firestore g uid w = (Ok rs, w') ∧
    http w' = http w ∧
    (∀ r, r ∈ rs → r ∈ collection_docs (firestore w) "reminders").
Proof.
  destruct (db g) as [c|] eqn:Hdb;
    [destruct ((next_outage (firestore w)).1) as [e|] eqn:Ho|].
  - rewrite (get_reminders_query_fails g c uid w e) by done.
    do 2 eexists. split; [done|]. split; [done|].
    intros r Hr. by apply elem_of_nil in Hr.
  - rewrite (get_reminders_query_succeeds g c uid w) by done.
    do 2 eexists. split; [done|]. split; [done|].
    intros r Hr. by apply select_where_order_by_elem in Hr as [? _].
  - rewrite get_reminders_without_client by done.
    do 2 eexists. split; [done|]. split; [done|].
    intros r Hr. by apply elem_of_nil in Hr.
Qed.

Lemma saved_reminders_showable g uid w :
  Forall showable (collection_docs (firestore w) "reminders") →
  ∃ w', saved_reminders g uid w = (Ok tt, w') ∧ http w' = http w.
Proof.
  intros Hall. unfold saved_reminders, bind.
  destruct (get_reminders_frame g uid w) as (rs & w1 & -> & Hh & Hin).
  destruct (render_reminders_showable rs w1) as (w2 & -> & _ & Hh2).
  { rewrite Forall_forall in Hall. apply Forall_forall. intros r Hr.
    by apply Hall, Hin. }
  eexists. split; [done|]. congruence.
Qed.

(** X14: when every document of the "reminders" collection can be shown
    (its time parses as "HH:MM", it has a medicine name and a dosage), the
    reminders tab renders without raising, for any user id and whether or
    not the database can be reached. *)
Theorem saved_reminders_never_raises g uid w :
  Forall showable (collection_docs (firestore w) "reminders") →
  (saved_reminders g uid w).1 = Ok tt.
Proof.
  intros H. by destruct (saved_reminders_showable g uid w H) as (w' & -> & _).
Qed.

Lemma saved_reminders_never_raises_witness :
  Forall showable (collection_docs (firestore configured_world) "reminders") ∧
  (saved_reminders configured_globals "user_17" configured_world).1 = Ok tt.
Proof.
  assert (Forall showable (collection_docs (firestore configured_world) "reminders"))
    as H by (repeat constructor; try (by vm_compute); by eexists).
  split; [exact H|].
  exact (saved_reminders_never_raises configured_globals "user_17" configured_world H).
Defined.

Lemma startup_frame w :
  ∃ g w', startup w = (Ok g, w') ∧ firestore w' = firestore w ∧ http w' = http w.
Proof.
  unfold startup, bind, try_except, getenv, path_exists,
    from_service_account_json, st, ret.
  cbn -[opt_truthy].
  destruct (opt_truthy (os_environ w !! "GEMINI_API_KEY")) eqn:Hg;
    cbn -[opt_truthy]; rewrite ?Hg; cbn -[opt_truthy];
    (destruct (os_environ w !! "FIRESTORE_CREDENTIALS") as [path|] eqn:Hcred;
     cbn -[opt_truthy];
     [destruct (service_account_files w !! path) as [[]|] eqn:Hfile;
      cbn -[opt_truthy]; rewrite ?Hcred; cbn -[opt_truthy];
      rewrite ?Hfile; cbn -[opt_truthy]|]);
    do 2 eexists; (split; [reflexivity|]); by cbn.
Qed.

Lemma get_health_advice_frame s w :
  ∃ w', get_health_advice s w = (Ok tt, w') ∧
        firestore w' = firestore w ∧ http w' = http w.
Proof.
  unfold get_health_advice. destruct (str_truthy s); [|by eexists].
  unfold bind, get_gemini_response, try_except, send_message.
  destruct (chat w s); by eexists.
Qed.

Lemma submit_reminder_frame g uid m d t w :
  ∃ w', submit_reminder g uid m d t w = (Ok tt, w') ∧ http w' = http w.
Proof.
  unfold submit_reminder.
  destruct (str_truthy m && str_truthy d && time_truthy t); [|by eexists].
  unfold bind.
  destruct (db g) as [c|] eqn:Hdb;
    [destruct ((next_outage (firestore w)).1) as [e|] eqn:Ho|].
  - rewrite (add_reminder_write_fails g c _ _ _ _ w e) by done. by eexists.
  - rewrite (add_reminder_write_succeeds g c) by done. by eexists.
  - rewrite add_reminder_without_client by done. by eexists.
Qed.

Lemma submit_reminder_showable_docs g uid m d t w :
  valid_time t →
  Forall showable (collection_docs (firestore w) "reminders") →
  Forall showable
    (collection_docs (firestore (submit_reminder g uid m d t w).2) "reminders").
Proof.
  intros Hv Hshow.
  destruct (submit_reminder_server g uid m d t w) as [[Hc _]|[Hc _]];
    simpl in Hc; unfold collection_docs in *; rewrite Hc; [done|].
  rewrite lookup_insert_eq. simpl. apply Forall_app. split; [done|].
  constructor; [|constructor]. by apply stored_reminder_showable.
Qed.

(** X15: a whole run of the script ends without raising when the time
    given is a valid time of day, every stored reminder can be shown, and
    the places service answers in one of the expected ways; this holds for
    every combination of buttons and texts, configured or not. *)
Theorem script_never_raises py_str i w :
  valid_time (time_input i) →
  Forall showable (collection_docs (firestore w) "reminders") →
  (∀ url params, expected_reply (http w url params)) →
  (script py_str i w).1 = Ok tt.
Proof.
  intros Hv Hshow Hhttp.
  destruct (startup_frame w) as (g & w1 & Hs & Hf1 & Hh1).
  assert (∃ w2, (if get_health_advice_clicked i
                 then get_health_advice (user_symptom_input i) else ret tt) w1
                = (Ok tt, w2) ∧ firestore w2 = firestore w1 ∧ http w2 = http w1)
    as (w2 & E2 & Hf2 & Hh2).
  { destruct (get_health_advice_clicked i);
      [apply get_health_advice_frame|by eexists]. }
  assert (∃ w3, (if add_reminder_clicked i
                 then submit_reminder g (session_user_id i) (medicine_name_input i)
                        (dosage_input i) (time_input i)
                 else ret tt) w2 = (Ok tt, w3) ∧ http w3 = http w2 ∧
                Forall showable (collection_docs (firestore w3) "reminders"))
    as (w3 & E3 & Hh3 & Hshow3).
  { assert (Forall showable (collection_docs (firestore w2) "reminders")) as Hshow2
      by by rewrite Hf2, Hf1.
    destruct (add_reminder_clicked i); [|by eexists].
    pose proof (submit_reminder_showable_docs g (session_user_id i)
                  (medicine_name_input i) (dosage_input i) (time_input i) w2
                  Hv Hshow2) as Hkept.
    destruct (submit_reminder_frame g (session_user_id i) (medicine_name_input i)
                (dosage_input i) (time_input i) w2) as (w3 & E & Hh).
    rewrite E in Hkept. by exists w3. }
  destruct (saved_reminders_showable g (session_user_id i) w3 Hshow3)
    as (w4 & E4 & Hh4).
  unfold script. unfold bind at 1. rewrite Hs.
  unfold bind at 1. rewrite E2. unfold bind at 1. rewrite E3.
  unfold bind at 1. rewrite E4.
  destruct (search_clinics_clicked i); [|done].
  apply search_clinics_expected.
  rewrite Hh4, Hh3, Hh2, Hh1. apply Hhttp.
Qed.

Lemma script_never_raises_witness :
  let i :=
    {| session_user_id := "user_17";
       user_symptom_input := "I have fever and headache.";
       get_health_advice_clicked := true;
       medicine_name_input := "Paracetamol";
       dosage_input := "2 tablets";
       time_input := mktime 13 0 59 7;
       add_reminder_clicked := true;
       location_input := "Lucknow";
       search_clinics_clicked := true |} in
  valid_time (time_input i) ∧
  Forall showable (collection_docs (firestore configured_world) "reminders") ∧
  (∀ url params, expected_reply (http configured_world url params)) ∧
  (script sample_py_str i configured_world).1 = Ok tt.
Proof.
  intros i.
  assert (valid_time (time_input i)) as Hv by (unfold valid_time; simpl; lia).
  assert (Forall showable (collection_docs (firestore configured_world) "reminders"))
    as Hs by (repeat constructor; try (by vm_compute); by eexists).
  assert (∀ url params, expected_reply (http configured_world url params)) as Hh.
  { intros url params. simpl. case_bool_decide.
    - right. simpl. repeat constructor; by eexists.
    - by left. }
  split; [exact Hv|]. split; [exact Hs|]. split; [exact Hh|].
  exact (script_never_raises sample_py_str i configured_world Hv Hs Hh).
Defined.

(** ** Startup, the chat tab, the session's id *)

(** X16: startup never raises; the two keys are what the environment
    holds; the database handle exists exactly when the credentials variable
    names an existing file with a usable key; and when the Gemini key is
    set and the handle exists, startup shows nothing. *)
Theorem startup_globals w :
  ∃ g w',
    startup w = (Ok g, w') ∧
    GEMINI_API_KEY g = os_environ w !! "GEMINI_API_KEY" ∧
    GOOGLE_MAPS_API_KEY g = os_environ w !! "GOOGLE_MAPS_API_KEY" ∧
    (∀ path, db g = Some (FirestoreClient path) ↔
             os_environ w !! "FIRESTORE_CREDENTIALS" = Some path ∧
             service_account_files w !! path = Some true) ∧
    (opt_truthy (os_environ w !! "GEMINI_API_KEY") = true → is_Some (db g) →
     page w' = page w).
Proof.
  unfold startup, bind, try_except, getenv, path_exists,
    from_service_account_json, st, ret.
  cbn -[opt_truthy].
  destruct (opt_truthy (os_environ w !! "GEMINI_API_KEY")) eqn:Hg;
    cbn -[opt_truthy]; rewrite ?Hg; cbn -[opt_truthy];
    (destruct (os_environ w !! "FIRESTORE_CREDENTIALS") as [path|] eqn:Hcred;
     cbn -[opt_truthy];
     [destruct (service_account_files w !! path) as [[]|] eqn:Hfile;
      cbn -[opt_truthy]; rewrite ?Hcred; cbn -[opt_truthy];
      rewrite ?Hfile; cbn -[opt_truthy]|]);
    do 2 eexists; (split; [reflexivity|]); cbn;
    (split; [done|]); (split; [done|]);
    (split;
       [intros p; split;
          [intros Hp; try discriminate Hp; injection Hp as <-; by split
          |intros [Hp Hf]; try discriminate Hp; injection Hp as <-; congruence]|]);
    intros ? Hdb; try done; by apply is_Some_None in Hdb.
Qed.

Example startup_configured_world :
  startup configured_world = (Ok configured_globals, configured_world).
Proof. vm_compute. reflexivity. Qed.

(** X17: the chat tab never raises and shows exactly one widget: a warning
    when no symptoms were typed; otherwise an info box with the model's
    reply or, when the call fails, with an error text that carries the
    exception's message.  It leaves the database alone. *)
Theorem get_health_advice_outcome s w :
  (get_health_advice s w).1 = Ok tt ∧
  firestore (get_health_advice s w).2 = firestore w ∧
  rendered w (get_health_advice s w).2
  = [ if str_truthy s then
        match chat w s with
        | Ok reply => st_info reply
        | Raise e =>
            st_info ("Error communicating with Gemini API: " +:+ exn_str e +:+
                     ". Please check your API key and network connection.")
        end
      else st_warning "Please enter your symptoms to get advice." ].
Proof.
  unfold get_health_advice. destruct (str_truthy s).
  - unfold bind, get_gemini_response, try_except, send_message.
    destruct (chat w s); (split; [done|]); (split; [done|]); by apply rendered_one.
  - split; [done|]. split; [done|]. by apply rendered_one.
Qed.




Example ensure_user_id_sample :
  ensure_user_id "1730641234.567891" ∅ !! "user_id"
  = Some "user_1730641234567891".
Proof. vm_compute. reflexivity. Qed.
